(** * conv_cueiso: CUE/BIN <-> ISO conversion

    A shallow embedding of [conv_cueiso.py]: the sector transcoding loops of
    [bin_to_iso] and [iso_to_bin], the CUE parser [parse_cue], the overwrite
    check [check_overwrite] and the CUE sheet that [iso_to_bin] writes.

    Conventions.
    - Binary file contents and the values of [read] are [list byte].
    - Sizes and offsets are [nat]: the only values the script ever passes are
      the constants 2352, 2048 and 16.
    - A binary stream opened for reading is the list of the bytes that are
      still unread; a stream opened for writing is the list of the bytes
      written so far.
    - Text is [string]; the model of [str.upper], [str.lower] and [str.strip]
      is the ASCII one (code points below 128). *)

From Stdlib.Strings Require Import Byte Ascii.
From stdpp Require Import base list strings gmap.
From Equations Require Import Equations.
From Equations.Prop Require Import Logic.
From Stdlib Require Import Lia.

(** ** Constants *)

Definition SECTOR_2352 : nat := 2352.
Definition SECTOR_2048 : nat := 2048.
Definition DATA_OFFSET_2352 : nat := 16.  (* MODE1 data starts at byte 16 *)

(** ** Python sequences *)

Module Py.

(** [s[i:j]] for indices [0 <= i], [0 <= j]: both ends are clamped to the
    length of [s], and the slice is empty when [j <= i]. *)
Definition slice {A} (i j : nat) (s : list A) : list A :=
  take (j - i) (drop i s).

(** [s[i:j] = t] on a mutable sequence (a [bytearray]): the elements of the
    slice are replaced by the elements of [t], whatever the length of [t];
    the sequence grows or shrinks accordingly. *)
Definition slice_assign {A} (s : list A) (i j : nat) (t : list A) : list A :=
  take i s ++ t ++ drop (i `max` j) s.

(** [bytearray(n)]: [n] zero bytes. *)
Definition bytearray (n : nat) : list byte := replicate n x00.

(** [f.read(n)] on a binary stream, for [0 <= n]: at most [n] bytes, fewer
    only at the end of the stream; returns the bytes read and the rest. *)
Definition read (n : nat) (f : list byte) : list byte * list byte :=
  (take n f, drop n f).

End Py.

(** ** The transcoding loops *)

(** The payload that [bin_to_iso] writes for one chunk read from the BIN. *)
Definition bin_to_iso_payload (sector_size : nat) (sector : list byte) : list byte :=
  if decide (sector_size = SECTOR_2352)
  then Py.slice DATA_OFFSET_2352 (DATA_OFFSET_2352 + SECTOR_2048) sector
  else sector.

(** The [while True] loop of [bin_to_iso]: [binf] is the source stream,
    [isof] the destination stream; the result is the destination when the
    loop breaks. *)
Equations? bin_to_iso_loop (sector_size : nat) (binf isof : list byte) : list byte
  by wf (length binf) lt :=
bin_to_iso_loop sector_size binf isof with inspect (Py.read sector_size binf) := {
  | exist _ (nil, _) _ := isof
  | exist _ (sector, binf') Hread :=
      bin_to_iso_loop sector_size binf'
        (isof ++ bin_to_iso_payload sector_size sector) }.
Proof.
  destruct sector_size as [|n]; [discriminate|].
  destruct binf as [|x binf]; [discriminate|].
  rewrite length_drop. simpl. lia.
Qed.

(** The frame that [iso_to_bin] writes for one chunk read from the ISO. *)
Definition iso_to_bin_frame (data : list byte) : list byte :=
  let sector := Py.bytearray SECTOR_2352 in
  Py.slice_assign sector DATA_OFFSET_2352 (DATA_OFFSET_2352 + SECTOR_2048) data.

(** The [while True] loop of [iso_to_bin]. *)
Equations? iso_to_bin_loop (isof binf : list byte) : list byte
  by wf (length isof) lt :=
iso_to_bin_loop isof binf with inspect (Py.read SECTOR_2048 isof) := {
  | exist _ (nil, _) _ := binf
  | exist _ (data, isof') Hread :=
      iso_to_bin_loop isof' (binf ++ iso_to_bin_frame data) }.
Proof.
  destruct isof as [|x isof]; [discriminate|].
  rewrite length_drop. unfold SECTOR_2048. simpl. lia.
Qed.

(** The two directions of the transcoder, as the specification names them. *)
Definition rawToUser (source : list byte) : list byte :=
  bin_to_iso_loop SECTOR_2352 source [].

Definition userToRaw (source : list byte) : list byte :=
  iso_to_bin_loop source [].

(** ** Python strings (ASCII) *)

Module Str.

Definition dquote : ascii := "034"%char.
Definition LF : ascii := "010"%char.
Definition CR : ascii := "013"%char.

Definition code (c : ascii) : N := Ascii.N_of_ascii c.

(** [c.isspace()] for a code point below 128: TAB, LF, VT, FF, CR, the four
    separators FS, GS, RS, US, and the space. Python also takes U+0085,
    U+00A0 and further Unicode white space for spaces: statements about
    [strip] are made for ASCII text (see [ascii_only]). *)
Definition isspace (c : ascii) : bool :=
  ((9 <=? code c) && (code c <=? 13) || (28 <=? code c) && (code c <=? 32))%N.

(** [c.upper()] and [c.lower()] for a code point below 128. Python also maps
    letters beyond ASCII: statements about [upper] and [lower] are made for
    ASCII text (see [ascii_only]). *)
Definition upper_char (c : ascii) : ascii :=
  if ((97 <=? code c) && (code c <=? 122))%N
  then Ascii.ascii_of_N (code c - 32) else c.

Definition lower_char (c : ascii) : ascii :=
  if ((65 <=? code c) && (code c <=? 90))%N
  then Ascii.ascii_of_N (code c + 32) else c.

Fixpoint map (f : ascii -> ascii) (s : string) : string :=
  match s with
  | EmptyString => EmptyString
  | String c s' => String (f c) (map f s')
  end.

Definition upper : string -> string := map upper_char.
Definition lower : string -> string := map lower_char.

Fixpoint lstrip (s : string) : string :=
  match s with
  | EmptyString => EmptyString
  | String c s' => if isspace c then lstrip s' else s
  end.

Fixpoint rstrip (s : string) : string :=
  match s with
  | EmptyString => EmptyString
  | String c s' =>
      match rstrip s' with
      | EmptyString => if isspace c then EmptyString else String c EmptyString
      | r => String c r
      end
  end.

(** [s.strip()] *)
Definition strip (s : string) : string := rstrip (lstrip s).

(** [s.startswith(p)] *)
Fixpoint startswith (s p : string) : bool :=
  match p, s with
  | EmptyString, _ => true
  | String a p', String b s' => if Ascii.eqb a b then startswith s' p' else false
  | String _ _, EmptyString => false
  end.

(** [p in s] *)
Fixpoint contains (p s : string) : bool :=
  startswith s p ||
  match s with
  | EmptyString => false
  | String _ s' => contains p s'
  end.

(** [s.split(sep)] for a separator of one character: never the empty list. *)
Fixpoint split (sep : ascii) (s : string) : list string :=
  match s with
  | EmptyString => [EmptyString]
  | String c s' =>
      if Ascii.eqb c sep then EmptyString :: split sep s'
      else match split sep s' with
           | [] => [String c EmptyString]
           | p :: ps => String c p :: ps
           end
  end.

(** Reading a text file with universal newlines: CR LF and a lone CR are
    both given to the program as LF. [prev_cr] tells that the character
    before was a CR. *)
Fixpoint translate_newlines (prev_cr : bool) (s : string) : string :=
  match s with
  | EmptyString => EmptyString
  | String c s' =>
      if Ascii.eqb c CR then String LF (translate_newlines true s')
      else if Ascii.eqb c LF && prev_cr then translate_newlines false s'
      else String c (translate_newlines false s')
  end.

(** The lines a text stream yields when iterated: each keeps its LF, the
    last one may have none. *)
Fixpoint lines (s : string) : list string :=
  match s with
  | EmptyString => []
  | String c s' =>
      if Ascii.eqb c LF then String LF EmptyString :: lines s'
      else match lines s' with
           | [] => [String c EmptyString]
           | l :: ls => String c l :: ls
           end
  end.

(** [for line in f] over a file opened in text mode whose decoded content
    is [text]. *)
Definition file_lines (text : string) : list string :=
  lines (translate_newlines false text).

(** [s.encode()] for ASCII text: one byte per character. *)
Definition encode (s : string) : list byte := String.list_byte_of_string s.

End Str.

(** ** Paths

    A [Path] stands for a [pathlib.Path] whose final component is not empty
    (as is the path of any file): [dir] is all that precedes the final
    component, [stem] and [suffix] make up the final component. *)

Record Path := mkPath { dir : string; stem : string; suffix : string }.

(** [path.name] *)
Definition name (p : Path) : string := stem p +:+ suffix p.

(** [str(path)], also what an f-string shows for [{path}] *)
Definition str (p : Path) : string := dir p +:+ name p.

(** [path.with_suffix(s)] *)
Definition with_suffix (p : Path) (s : string) : Path :=
  mkPath (dir p) (stem p) s.

(** ** Outcomes and the world

    A call returns a value, or leaves through [error] (the message goes to
    standard error after the tag [[ERR]] and the process exits with status 1),
    or raises an exception that nothing in the script catches. *)

Inductive exn := IndexError | EOFError | FileNotFoundError.

Inductive outcome (A : Type) :=
  | Return (a : A)
  | SysExit (msg : string)
  | Raise (e : exn).
Arguments Return {A} a.
Arguments SysExit {A} msg.
Arguments Raise {A} e.

(** [error(msg)] *)
Definition error {A} (msg : string) : outcome A := SysExit msg.

(** The world the converters act on: the regular files, by path, and the
    lines still to be read from standard input. Standard output is not
    modelled. *)
Record world := mkWorld {
  fs : gmap string (list byte);
  stdin : list string
}.

Definition M (A : Type) : Type := world -> outcome A * world.

Definition ret {A} (a : A) : M A := fun w => (Return a, w).

Definition bind {A B} (m : M A) (k : A -> M B) : M B :=
  fun w =>
    match m w with
    | (Return a, w') => k a w'
    | (SysExit msg, w') => (SysExit msg, w')
    | (Raise e, w') => (Raise e, w')
    end.

Notation "x <- m ;; k" := (bind m (fun x => k))
  (at level 100, m at next level, right associativity).
Notation "m ;;; k" := (bind m (fun _ => k))
  (at level 100, right associativity).

(** A call that leaves with the outcome [r] and changes nothing. *)
Definition leave {A} (r : outcome A) : M A := fun w => (r, w).

(** [path.exists()] *)
Definition exists_ (p : Path) : M bool :=
  fun w => (Return (bool_decide (is_Some (fs w !! str p))), w).

(** [path.open("rb")]: the bytes of the file, or [FileNotFoundError]. The
    stream reads the file as it is when [read] is called, see [contents]. *)
Definition open_rb (p : Path) : M unit :=
  fun w => match fs w !! str p with
           | Some _ => (Return tt, w)
           | None => (Raise FileNotFoundError, w)
           end.

(** [path.open("wb")]: the file is created, or truncated when it exists. *)
Definition open_wb (p : Path) : M unit :=
  fun w => (Return tt, mkWorld (<[str p := []]> (fs w)) (stdin w)).

(** What a stream opened on [p] reads from its start. *)
Definition contents (p : Path) : M (list byte) :=
  fun w => (Return (default [] (fs w !! str p)), w).

(** The file at [p] once the stream written to it holds [data] and is
    closed. *)
Definition store (p : Path) (data : list byte) : M unit :=
  fun w => (Return tt, mkWorld (<[str p := data]> (fs w)) (stdin w)).

(** [path.write_text(text)] *)
Definition write_text (p : Path) (text : string) : M unit :=
  store p (Str.encode text).

(** ** Utility *)

(** The loop of [ask_overwrite] over the lines that [input] reads: a line
    that is no answer asks again; the end of the input raises [EOFError]. *)
Fixpoint ask_overwrite_loop (answers : list string) : outcome bool * list string :=
  match answers with
  | [] => (Raise EOFError, [])
  | line :: rest =>
      let ans := Str.lower (Str.strip line) in
      if bool_decide (ans ∈ ["y"; "yes"]) then (Return true, rest)
      else if bool_decide (ans ∈ ["n"; "no"; ""]) then (Return false, rest)
      else ask_overwrite_loop rest
  end.

Definition ask_overwrite (path : Path) : M bool :=
  fun w => let (r, rest) := ask_overwrite_loop (stdin w) in
           (r, mkWorld (fs w) rest).

Definition check_overwrite (path : Path) (force ask : bool) : M unit :=
  e <- exists_ path ;;
  if negb e then ret tt
  else if force then ret tt
  else if ask then
    (yes <- ask_overwrite path ;;
     if yes then ret tt
     else leave (error "Operation aborted by user"))
  else leave (error (str path +:+ " already exists (use -f or -a)")).

(** ** CUE parsing *)

(** The body of the [for line in f] loop of [parse_cue]; [None] is Python's
    [None]. *)
Definition parse_cue_line (cue_path : Path) (line : string)
    (bin_file : option string) (mode : option nat)
  : outcome (option string * option nat) :=
  let line := Str.upper (Str.strip line) in
  if Str.startswith line "FILE" then
    match Str.split Str.dquote line !! 1 with
    | Some name => Return (Some name, mode)
    | None => Raise IndexError
    end
  else if Str.startswith line "TRACK" then
    if Str.contains "AUDIO" line then
      error (str cue_path +:+ ": audio tracks are not supported")
    else if Str.contains "MODE1/2352" line then Return (bin_file, Some SECTOR_2352)
    else if Str.contains "MODE1/2048" line then Return (bin_file, Some SECTOR_2048)
    else error (str cue_path +:+ ": unsupported track mode")
  else Return (bin_file, mode).

Fixpoint parse_cue_loop (cue_path : Path) (f : list string)
    (bin_file : option string) (mode : option nat)
  : outcome (option string * option nat) :=
  match f with
  | [] => Return (bin_file, mode)
  | line :: f' =>
      match parse_cue_line cue_path line bin_file mode with
      | Return (bin_file', mode') => parse_cue_loop cue_path f' bin_file' mode'
      | other => other
      end
  end.

(** [parse_cue(cue_path)], where [f] is the sequence of lines that the
    opened CUE file yields. The last test is [not bin_file or not mode]:
    [None], the empty string and 0 are all false. *)
Definition parse_cue (cue_path : Path) (f : list string) : outcome (string * nat) :=
  match parse_cue_loop cue_path f None None with
  | Return (Some (String c s), Some (S m)) => Return (String c s, S m)
  | Return _ => error (str cue_path +:+ ": invalid or unsupported CUE file")
  | SysExit msg => SysExit msg
  | Raise e => Raise e
  end.

(** ** Converters *)

Definition bin_to_iso (bin_path iso_path : Path) (sector_size : nat)
    (force ask : bool) : M unit :=
  check_overwrite iso_path force ask ;;;
  open_rb bin_path ;;;
  open_wb iso_path ;;;
  binf <- contents bin_path ;;
  store iso_path (bin_to_iso_loop sector_size binf []).

(** The text that [iso_to_bin] writes to the CUE file. *)
Definition cue_text (bin_name : string) : string :=
  "FILE " +:+ String Str.dquote bin_name +:+ String Str.dquote " BINARY" +:+
  String Str.LF "  TRACK 01 MODE1/2352" +:+
  String Str.LF "    INDEX 01 00:00:00" +:+
  String Str.LF "".

Definition iso_to_bin (iso_path bin_path : Path) (force ask : bool) : M unit :=
  let cue_path := with_suffix bin_path ".cue" in
  check_overwrite bin_path force ask ;;;
  check_overwrite cue_path force ask ;;;
  open_rb iso_path ;;;
  open_wb bin_path ;;;
  isof <- contents iso_path ;;
  store bin_path (iso_to_bin_loop isof []) ;;;
  write_text cue_path (cue_text (name bin_path)).

(** ** Reference notions for the statements *)

(** Lines put together into a text, each ended by a line feed. *)
Fixpoint unlines (ls : list string) : string :=
  match ls with
  | [] => ""
  | l :: ls' => l +:+ String Str.LF (unlines ls')
  end.

(** The three lines of the CUE template as the specification lists them. *)
Definition spec_cue_lines (bin_name : string) : list string :=
  [ "FILE " +:+ String Str.dquote bin_name +:+ String Str.dquote " BINARY";
    "TRACK 01 MODE1/2352";
    "INDEX 01 00:00:00" ].

(** The lines that [iso_to_bin] writes: the TRACK line is indented by two
    spaces and the INDEX line by four. *)
Definition written_cue_lines (bin_name : string) : list string :=
  [ "FILE " +:+ String Str.dquote bin_name +:+ String Str.dquote " BINARY";
    "  TRACK 01 MODE1/2352";
    "    INDEX 01 00:00:00" ].

(** The lines that [parse_cue] takes for FILE and for TRACK declarations. *)
Definition is_file_line (line : string) : bool :=
  Str.startswith (Str.upper (Str.strip line)) "FILE".

Definition is_track_line (line : string) : bool :=
  negb (is_file_line line) && Str.startswith (Str.upper (Str.strip line)) "TRACK".

(** The three messages with which [parse_cue] leaves through [error]. *)
Definition UnsupportedTrack (cue_path : Path) : string :=
  str cue_path +:+ ": audio tracks are not supported".
Definition UnsupportedSectorMode (cue_path : Path) : string :=
  str cue_path +:+ ": unsupported track mode".
Definition InvalidCue (cue_path : Path) : string :=
  str cue_path +:+ ": invalid or unsupported CUE file".

(** The message of [check_overwrite] when the destination exists and neither
    [-f] nor [-a] is given. *)
Definition DestinationExists (path : Path) : string :=
  str path +:+ " already exists (use -f or -a)".

(** Sample paths and sheets. *)
Definition game_cue : Path := mkPath "" "game" ".cue".
Definition game_bin : Path := mkPath "" "game" ".bin".
Definition game_iso : Path := mkPath "" "game" ".iso".

Definition sheet_x_bin : string := unlines (spec_cue_lines "x.bin").

Definition sheet_no_quote : string := unlines ["FILE x.bin BINARY"; "TRACK 01 MODE1/2352"].

Definition sheet_two_files : string :=
  unlines [ "FILE " +:+ String Str.dquote "A.BIN" +:+ String Str.dquote " BINARY";
            "FILE " +:+ String Str.dquote "B.BIN" +:+ String Str.dquote " BINARY";
            "  TRACK 01 MODE1/2352";
            "  TRACK 02 MODE1/2048" ].

(** ** Further notions for the statements *)

(** What the destination would hold if a last chunk shorter than the sector
    size were taken for the end of the stream, as the specification words it:
    the transcoding of the whole sectors, and nothing for the short chunk. *)
Definition short_chunk_as_end_of_stream (sector_size : nat) (source : list byte)
  : list byte :=
  bin_to_iso_loop sector_size
    (take (length source / sector_size * sector_size) source) [].

(** The zero bytes that come back after a payload of [len] bytes from
    [userToRaw] followed by [rawToUser]. *)
Definition round_trip_padding (len : nat) : nat :=
  let L := len mod SECTOR_2048 in
  if decide (L = 0) then 0 else 288 `min` (SECTOR_2048 - L).

(** The answers that [ask_overwrite] takes for yes and for no. *)
Definition is_yes (line : string) : bool :=
  bool_decide (Str.lower (Str.strip line) ∈ ["y"; "yes"]).

Definition is_no (line : string) : bool :=
  bool_decide (Str.lower (Str.strip line) ∈ ["n"; "no"; ""]).

Definition no_answer (line : string) : Prop :=
  is_yes line = false /\ is_no line = false.

(** [c in s] for one character [c]. *)
Fixpoint occurs (c : ascii) (s : string) : bool :=
  match s with
  | EmptyString => false
  | String x s' => Ascii.eqb x c || occurs c s'
  end.

(** Text of code points below 128, on which the model of [upper], [lower],
    [strip] and of decoding is that of Python. *)
Fixpoint ascii_only (s : string) : bool :=
  match s with
  | EmptyString => true
  | String c s' => (Str.code c <? 128)%N && ascii_only s'
  end.

(** ** The dispatcher *)

(** [warn(msg)]: the message goes to standard error after the tag [[WARN]];
    standard error is not part of the world, and the call returns. *)
Definition warn (msg : string) : M unit := ret tt.

(** The text of a file opened with [open("r", encoding="utf-8",
    errors="ignore")], for ASCII content: one character for each byte. For
    other content Python joins the bytes of a UTF-8 sequence into one
    character and drops the bytes that are not UTF-8; [decode] is used on
    ASCII content only. *)
Definition decode (data : list byte) : string := String.string_of_list_byte data.

(** [path.open("r", ...)] and the lines that the stream yields, or
    [FileNotFoundError]. *)
Definition open_r (p : Path) : M (list string) :=
  fun w => match fs w !! str p with
           | Some data => (Return (Str.file_lines (decode data)), w)
           | None => (Raise FileNotFoundError, w)
           end.

(** [parse_cue(cue_path)] in the world: the sheet is read from the file. *)
Definition parse_cue_path (cue_path : Path) : M (string * nat) :=
  f <- open_r cue_path ;;
  leave (parse_cue cue_path f).

(** A name at its last dot, as [name.rfind(".")] finds it: what is before
    the dot, and the rest from the dot on. *)
Fixpoint rsplit_dot (s : string) : option (string * string) :=
  match s with
  | EmptyString => None
  | String c s' =>
      match rsplit_dot s' with
      | Some (a, b) => Some (String c a, b)
      | None => if Ascii.eqb c "." then Some (EmptyString, s) else None
      end
  end.

(** Stem and suffix of a last path component: the suffix starts at the last
    dot, unless that dot is the first or the last character of the name. *)
Definition split_name (n : string) : string * string :=
  match rsplit_dot n with
  | Some (String c a, String d (String e b)) => (String c a, String d (String e b))
  | _ => (n, EmptyString)
  end.

(** [path.parent / child] for a [child] that is one path component (not
    empty, without separator, not a dot alone). *)
Definition parent_join (p : Path) (child : string) : Path :=
  let (st, su) := split_name child in mkPath (dir p) st su.

Definition process_file (inp : Path) (output : option Path) (force ask : bool)
  : M unit :=
  let ext := Str.lower (suffix inp) in
  if decide (ext = ".cue") then
    d <- parse_cue_path inp ;;
    let bin_name := d.1 in
    let sector_size := d.2 in
    let bin_path := parent_join inp bin_name in
    let iso_path := default (with_suffix inp ".iso") output in
    bin_to_iso bin_path iso_path sector_size force ask
  else if decide (ext = ".iso") then
    let bin_path := default (with_suffix inp ".bin") output in
    iso_to_bin inp bin_path force ask
  else if decide (ext = ".bin") then
    (* BIN is accepted silently but converted to ISO *)
    let iso_path := default (with_suffix inp ".iso") output in
    bin_to_iso inp iso_path SECTOR_2352 force ask
  else warn ("Skipping unsupported file: " +:+ str inp).

(** The last character of a string. *)
Fixpoint last_char (s : string) : option ascii :=
  match s with
  | EmptyString => None
  | String c EmptyString => Some c
  | String _ s' => last_char s'
  end.

(** * conv_cuechd: conversion to and from CHD with chdman

    The programs that the script starts, the search path and the platform
    are outside the script: the functions below take them as [run_program],
    [which] and [system]. *)

Module Chd.
Section Outside.

(** [subprocess.run(cmd)]: the program named by the head of [cmd] acts on the
    world and exits with a status, or is not found ([None]). *)
Variable run_program : list string -> world -> option nat * world.

(** [shutil.which(name)] finds a program. *)
Variable which : string -> world -> bool.

(** [platform.system()] *)
Variable system : string.

(** [subprocess.run(cmd, check=True)]: [true] when the program exits with
    status 0, [false] for the [CalledProcessError] of any other status;
    a program that is not found raises [FileNotFoundError]. *)
Definition run_check (cmd : list string) : M bool :=
  fun w => match run_program cmd w with
           | (Some 0, w') => (Return true, w')
           | (Some (S _), w') => (Return false, w')
           | (None, w') => (Raise FileNotFoundError, w')
           end.


(** [check_overwrite] of this script answers, where the one of conv_cueiso
    leaves through [error]. *)
Definition check_overwrite (path : Path) (force ask : bool) : M bool :=
  e <- exists_ path ;;
  if negb e then ret true
  else if force then ret true
  else if ask then ask_overwrite path
  else (warn (str path +:+ " already exists (use -f or -a)") ;;; ret false).




(** [run(cmd)] *)
Definition run (cmd : list string) : M unit :=
  ok <- run_check cmd ;;
  if ok then ret tt else leave (error "chdman failed").

Definition to_chd (inp out : Path) (force ask : bool) : M unit :=
  ok <- check_overwrite out force ask ;;
  if negb ok then ret tt
  else run ["chdman"; "createcd"; "-i"; str inp; "-o"; str out].

Definition chd_to_cue (inp out : Path) (force ask : bool) : M unit :=
  ok <- check_overwrite out force ask ;;
  if negb ok then ret tt
  else run ["chdman"; "extractcd"; "-i"; str inp; "-o"; str out].

Definition process_file (inp : Path) (output : option Path) (force ask : bool)
  : M unit :=
  let ext := Str.lower (suffix inp) in
  if bool_decide (ext ∈ [".cue"; ".iso"; ".bin"]) then
    let out := default (with_suffix inp ".chd") output in
    to_chd inp out force ask
  else if decide (ext = ".chd") then
    let out := default (with_suffix inp ".cue") output in
    chd_to_cue inp out force ask
  else warn ("Skipping unsupported file: " +:+ str inp).

End Outside.
End Chd.

(** * Properties *)

(** ** The loops, one iteration at a time *)

Lemma bin_to_iso_loop_eq sector_size binf isof :
  bin_to_iso_loop sector_size binf isof =
  match Py.read sector_size binf with
  | ([], _) => isof
  | (sector, binf') =>
      bin_to_iso_loop sector_size binf' (isof ++ bin_to_iso_payload sector_size sector)
  end.
Proof.
  rewrite bin_to_iso_loop_equation_1.
  change (Py.read sector_size binf)
    with (proj1_sig (inspect (Py.read sector_size binf))) at 2.
  generalize (inspect (Py.read sector_size binf)).
  intros [[[|b l] l0] e]; reflexivity.
Qed.

Lemma iso_to_bin_loop_eq isof binf :
  iso_to_bin_loop isof binf =
  match Py.read SECTOR_2048 isof with
  | ([], _) => binf
  | (data, isof') => iso_to_bin_loop isof' (binf ++ iso_to_bin_frame data)
  end.
Proof.
  rewrite iso_to_bin_loop_equation_1.
  change (Py.read SECTOR_2048 isof)
    with (proj1_sig (inspect (Py.read SECTOR_2048 isof))) at 2.
  generalize (inspect (Py.read SECTOR_2048 isof)).
  intros [[[|b l] l0] e]; reflexivity.
Qed.

Lemma take_nonempty {A} n (l : list A) : 0 < n -> l <> [] -> take n l <> [].
Proof. destruct n, l; simpl; (lia || congruence). Qed.

Lemma bin_to_iso_loop_nil sector_size isof :
  bin_to_iso_loop sector_size [] isof = isof.
Proof. rewrite bin_to_iso_loop_eq. unfold Py.read. rewrite take_nil. reflexivity. Qed.

Lemma bin_to_iso_loop_step sector_size binf isof :
  0 < sector_size -> binf <> [] ->
  bin_to_iso_loop sector_size binf isof =
  bin_to_iso_loop sector_size (drop sector_size binf)
    (isof ++ bin_to_iso_payload sector_size (take sector_size binf)).
Proof.
  intros Hn Hb. rewrite bin_to_iso_loop_eq. unfold Py.read.
  pose proof (take_nonempty sector_size binf Hn Hb) as Ht.
  destruct (take sector_size binf); [congruence | reflexivity].
Qed.

Lemma iso_to_bin_loop_nil binf : iso_to_bin_loop [] binf = binf.
Proof. rewrite iso_to_bin_loop_eq. reflexivity. Qed.

Lemma SECTOR_2048_pos : 0 < SECTOR_2048.
Proof. unfold SECTOR_2048. lia. Qed.

Lemma SECTOR_2352_pos : 0 < SECTOR_2352.
Proof. unfold SECTOR_2352. lia. Qed.

Lemma payload_fits : DATA_OFFSET_2352 + SECTOR_2048 <= SECTOR_2352.
Proof. unfold DATA_OFFSET_2352, SECTOR_2048, SECTOR_2352. lia. Qed.

Lemma iso_to_bin_loop_step isof binf :
  isof <> [] ->
  iso_to_bin_loop isof binf =
  iso_to_bin_loop (drop SECTOR_2048 isof)
    (binf ++ iso_to_bin_frame (take SECTOR_2048 isof)).
Proof.
  intros Hb. rewrite iso_to_bin_loop_eq. unfold Py.read.
  pose proof (take_nonempty SECTOR_2048 isof SECTOR_2048_pos Hb) as Ht.
  destruct (take SECTOR_2048 isof); [congruence | reflexivity].
Qed.

(** What is already written stays in front of what the loop writes. *)
Lemma bin_to_iso_loop_acc sector_size binf isof :
  bin_to_iso_loop sector_size binf isof = isof ++ bin_to_iso_loop sector_size binf [].
Proof.
  destruct (Nat.eq_dec sector_size 0) as [->|Hn].
  { rewrite !bin_to_iso_loop_eq. unfold Py.read. rewrite take_0, app_nil_r. reflexivity. }
  remember (length binf) as m eqn:Hm.
  revert binf isof Hm. induction m as [m IH] using lt_wf_ind. intros binf isof Hm.
  destruct binf as [|b binf].
  - rewrite !bin_to_iso_loop_nil, app_nil_r. reflexivity.
  - rewrite (bin_to_iso_loop_step _ _ isof), (bin_to_iso_loop_step _ _ []) by (lia || congruence).
    set (rest := drop sector_size (b :: binf)).
    assert (Hlt : length rest < m).
    { subst rest m. rewrite length_drop. simpl. lia. }
    rewrite app_nil_l.
    generalize (bin_to_iso_payload sector_size (take sector_size (b :: binf))).
    intros payload.
    rewrite (IH _ Hlt rest (isof ++ payload) eq_refl).
    rewrite (IH _ Hlt rest payload eq_refl).
    rewrite app_assoc. reflexivity.
Qed.

Lemma iso_to_bin_loop_acc isof binf :
  iso_to_bin_loop isof binf = binf ++ iso_to_bin_loop isof [].
Proof.
  remember (length isof) as m eqn:Hm.
  revert isof binf Hm. induction m as [m IH] using lt_wf_ind. intros isof binf Hm.
  destruct isof as [|b isof].
  - rewrite !iso_to_bin_loop_nil, app_nil_r. reflexivity.
  - rewrite (iso_to_bin_loop_step _ binf), (iso_to_bin_loop_step _ []) by congruence.
    set (rest := drop SECTOR_2048 (b :: isof)).
    assert (Hlt : length rest < m).
    { subst rest m. rewrite length_drop. pose proof SECTOR_2048_pos. simpl. lia. }
    rewrite app_nil_l.
    generalize (iso_to_bin_frame (take SECTOR_2048 (b :: isof))).
    intros frame.
    rewrite (IH _ Hlt rest (binf ++ frame) eq_refl).
    rewrite (IH _ Hlt rest frame eq_refl).
    rewrite app_assoc. reflexivity.
Qed.

(** One whole chunk in front of the source. *)
Lemma bin_to_iso_loop_chunk sector_size sector rest :
  0 < sector_size -> length sector = sector_size ->
  bin_to_iso_loop sector_size (sector ++ rest) [] =
  bin_to_iso_payload sector_size sector ++ bin_to_iso_loop sector_size rest [].
Proof.
  intros Hn Hl.
  rewrite bin_to_iso_loop_step; [|lia|destruct sector; simpl in *; (lia || congruence)].
  rewrite take_app_length', drop_app_length' by done.
  rewrite bin_to_iso_loop_acc. reflexivity.
Qed.

Lemma iso_to_bin_loop_chunk data rest :
  length data = SECTOR_2048 ->
  iso_to_bin_loop (data ++ rest) [] =
  iso_to_bin_frame data ++ iso_to_bin_loop rest [].
Proof.
  intros Hl. pose proof SECTOR_2048_pos.
  rewrite iso_to_bin_loop_step; [|destruct data; simpl in *; (lia || congruence)].
  rewrite take_app_length', drop_app_length' by done.
  rewrite iso_to_bin_loop_acc. reflexivity.
Qed.

(** A last chunk shorter than a sector. *)
Lemma bin_to_iso_loop_short sector_size sector :
  sector <> [] -> length sector <= sector_size ->
  bin_to_iso_loop sector_size sector [] = bin_to_iso_payload sector_size sector.
Proof.
  intros Hne Hl.
  rewrite bin_to_iso_loop_step; [| destruct sector; simpl in *; (lia || congruence) | done].
  rewrite take_ge, drop_ge by lia.
  rewrite bin_to_iso_loop_nil. reflexivity.
Qed.

Lemma iso_to_bin_loop_short data :
  data <> [] -> length data <= SECTOR_2048 ->
  iso_to_bin_loop data [] = iso_to_bin_frame data.
Proof.
  intros Hne Hl.
  rewrite iso_to_bin_loop_step by done.
  rewrite take_ge, drop_ge by lia.
  rewrite iso_to_bin_loop_nil. reflexivity.
Qed.

(** ** Slices *)

Lemma slice_length {A} i j (s : list A) :
  j <= length s -> length (Py.slice i j s) = j - i.
Proof. intros H. unfold Py.slice. rewrite length_take, length_drop. lia. Qed.

Lemma slice_app_l {A} i j (s t : list A) :
  j <= length s -> Py.slice i j (s ++ t) = Py.slice i j s.
Proof.
  intros H. unfold Py.slice.
  destruct (decide (i <= length s)) as [Hi|Hi].
  - rewrite drop_app_le by done. rewrite take_app_le; [done|]. rewrite length_drop. lia.
  - replace (j - i) with 0 by lia. reflexivity.
Qed.

Lemma slice_app_r {A} i j (s t : list A) :
  Py.slice (length s + i) (length s + j) (s ++ t) = Py.slice i j t.
Proof.
  unfold Py.slice. rewrite drop_app_add.
  replace (length s + j - (length s + i)) with (j - i) by lia. reflexivity.
Qed.

Lemma slice_all {A} (s : list A) : Py.slice 0 (length s) s = s.
Proof. unfold Py.slice. rewrite Nat.sub_0_r, drop_0, firstn_all. reflexivity. Qed.

Lemma bin_to_iso_payload_2352 sector :
  bin_to_iso_payload SECTOR_2352 sector =
  Py.slice DATA_OFFSET_2352 (DATA_OFFSET_2352 + SECTOR_2048) sector.
Proof. unfold bin_to_iso_payload. destruct (decide _); [reflexivity | contradiction]. Qed.

(** ** Raw sectors to user data *)

(** C1. A source of exactly [N] raw sectors of 2352 bytes gives [N * 2048]
    bytes, and for every [k < N] the bytes [k*2048 .. (k+1)*2048) of the
    output are the bytes [k*2352+16 .. k*2352+16+2048) of the source. *)
Theorem rawToUser_whole_sectors (N : nat) (source : list byte) :
  length source = N * SECTOR_2352 ->
  length (rawToUser source) = N * SECTOR_2048 /\
  forall k, k < N ->
    Py.slice (k * SECTOR_2048) ((k + 1) * SECTOR_2048) (rawToUser source) =
    Py.slice (k * SECTOR_2352 + DATA_OFFSET_2352)
             (k * SECTOR_2352 + DATA_OFFSET_2352 + SECTOR_2048) source.
Proof.
  unfold rawToUser. revert source.
  pose proof SECTOR_2352_pos as Hpos. pose proof payload_fits as Hfit.
  induction N as [|N IH]; intros source Hlen.
  - destruct source; [|discriminate].
    rewrite bin_to_iso_loop_nil. split; [reflexivity | lia].
  - rewrite <- (take_drop SECTOR_2352 source).
    set (sector := take SECTOR_2352 source).
    set (rest := drop SECTOR_2352 source).
    assert (Hs : length sector = SECTOR_2352).
    { subst sector. rewrite length_take. lia. }
    assert (Hr : length rest = N * SECTOR_2352).
    { subst rest. rewrite length_drop. lia. }
    destruct (IH rest Hr) as [IHlen IHk].
    rewrite bin_to_iso_loop_chunk, bin_to_iso_payload_2352 by done.
    set (payload := Py.slice DATA_OFFSET_2352 (DATA_OFFSET_2352 + SECTOR_2048) sector).
    assert (Hp : length payload = SECTOR_2048).
    { subst payload. rewrite slice_length by lia. lia. }
    split.
    + rewrite length_app, IHlen, Hp. lia.
    + intros [|k] Hk.
      * replace ((0 + 1) * SECTOR_2048) with (length payload) by lia.
        rewrite slice_app_l, !Nat.mul_0_l, Nat.add_0_l, slice_all by lia.
        rewrite slice_app_l by lia. reflexivity.
      * replace (S k * SECTOR_2048) with (length payload + k * SECTOR_2048) by lia.
        replace ((S k + 1) * SECTOR_2048)
          with (length payload + (k + 1) * SECTOR_2048) by lia.
        rewrite slice_app_r, IHk by lia.
        replace (S k * SECTOR_2352 + DATA_OFFSET_2352 + SECTOR_2048)
          with (length sector + (k * SECTOR_2352 + DATA_OFFSET_2352 + SECTOR_2048))
          by lia.
        replace (S k * SECTOR_2352 + DATA_OFFSET_2352)
          with (length sector + (k * SECTOR_2352 + DATA_OFFSET_2352)) by lia.
        rewrite slice_app_r. reflexivity.
Qed.

(** C1 at two sectors, the first with payload 01 and the second with 02. *)
Lemma rawToUser_whole_sectors_witness :
  let source := replicate 16 x00 ++ replicate 2048 x01 ++ replicate 288 x00 ++
                replicate 16 x00 ++ replicate 2048 x02 ++ replicate 288 x00 in
  length source = 2 * SECTOR_2352 /\
  length (rawToUser source) = 2 * SECTOR_2048 /\
  forall k, k < 2 ->
    Py.slice (k * SECTOR_2048) ((k + 1) * SECTOR_2048) (rawToUser source) =
    Py.slice (k * SECTOR_2352 + DATA_OFFSET_2352)
             (k * SECTOR_2352 + DATA_OFFSET_2352 + SECTOR_2048) source.
Proof.
  intros source.
  assert (H : length source = 2 * SECTOR_2352) by (vm_compute; reflexivity).
  split; [exact H | exact (rawToUser_whole_sectors 2 source H)].
Defined.

(** ** User data to raw sectors *)

(** The frame built for a chunk, whatever the length of the chunk: the slice
    assignment keeps the first 16 and the last 288 bytes of the zero-filled
    [bytearray] and puts the chunk between them. *)
Lemma iso_to_bin_frame_eq data :
  iso_to_bin_frame data = replicate 16 x00 ++ data ++ replicate 288 x00.
Proof.
  unfold iso_to_bin_frame, Py.slice_assign, Py.bytearray.
  rewrite take_replicate, drop_replicate. reflexivity.
Qed.

Lemma iso_to_bin_frame_length data :
  length (iso_to_bin_frame data) = length data + 304.
Proof. rewrite iso_to_bin_frame_eq, !length_app, !length_replicate. lia. Qed.

Lemma iso_to_bin_frame_payload data :
  length data = SECTOR_2048 ->
  bin_to_iso_payload SECTOR_2352 (iso_to_bin_frame data) = data.
Proof.
  intros Hl. rewrite bin_to_iso_payload_2352, iso_to_bin_frame_eq.
  change DATA_OFFSET_2352 with (length (replicate 16 x00) + 0) at 1.
  change DATA_OFFSET_2352 with (length (replicate 16 x00)).
  rewrite slice_app_r, <- Hl, slice_app_l, slice_all by lia. reflexivity.
Qed.

(** Whole chunks in front of the source are transcoded on their own. *)
Lemma iso_to_bin_loop_whole_app (N : nat) (a b : list byte) :
  length a = N * SECTOR_2048 ->
  iso_to_bin_loop (a ++ b) [] = iso_to_bin_loop a [] ++ iso_to_bin_loop b [].
Proof.
  pose proof SECTOR_2048_pos as Hpos.
  revert a. induction N as [|N IH]; intros a Hlen.
  - destruct a; [|discriminate]. rewrite iso_to_bin_loop_nil. reflexivity.
  - rewrite <- (take_drop SECTOR_2048 a), <- app_assoc.
    assert (Hs : length (take SECTOR_2048 a) = SECTOR_2048)
      by (rewrite length_take; lia).
    assert (Hr : length (drop SECTOR_2048 a) = N * SECTOR_2048)
      by (rewrite length_drop; lia).
    rewrite (iso_to_bin_loop_chunk _ (drop SECTOR_2048 a ++ b)) by done.
    rewrite (iso_to_bin_loop_chunk _ (drop SECTOR_2048 a)) by done.
    rewrite IH, app_assoc by done. reflexivity.
Qed.

(** [N] whole chunks give [N] frames of 2352 bytes, in source order. *)
Lemma iso_to_bin_loop_whole (N : nat) (a : list byte) :
  length a = N * SECTOR_2048 ->
  length (iso_to_bin_loop a []) = N * SECTOR_2352 /\
  forall k, k < N ->
    Py.slice (k * SECTOR_2352) ((k + 1) * SECTOR_2352) (iso_to_bin_loop a []) =
    iso_to_bin_frame (Py.slice (k * SECTOR_2048) ((k + 1) * SECTOR_2048) a).
Proof.
  pose proof SECTOR_2048_pos as Hpos.
  revert a. induction N as [|N IH]; intros a Hlen.
  - destruct a; [|discriminate].
    rewrite iso_to_bin_loop_nil. split; [reflexivity | lia].
  - rewrite <- (take_drop SECTOR_2048 a).
    set (data := take SECTOR_2048 a).
    set (rest := drop SECTOR_2048 a).
    assert (Hs : length data = SECTOR_2048).
    { subst data. rewrite length_take. lia. }
    assert (Hr : length rest = N * SECTOR_2048).
    { subst rest. rewrite length_drop. lia. }
    destruct (IH rest Hr) as [IHlen IHk].
    rewrite iso_to_bin_loop_chunk by done.
    assert (Hf : length (iso_to_bin_frame data) = SECTOR_2352).
    { rewrite iso_to_bin_frame_length, Hs. reflexivity. }
    remember (iso_to_bin_frame data) as frame eqn:Hframe.
    split.
    + rewrite length_app, IHlen, Hf. lia.
    + intros [|k] Hk.
      * replace ((0 + 1) * SECTOR_2352) with (length frame) by lia.
        replace ((0 + 1) * SECTOR_2048) with (length data) by lia.
        rewrite !slice_app_l, !Nat.mul_0_l, !slice_all by lia. exact Hframe.
      * replace ((S k + 1) * SECTOR_2352)
          with (length frame + (k + 1) * SECTOR_2352) by lia.
        replace (S k * SECTOR_2352) with (length frame + k * SECTOR_2352) by lia.
        replace ((S k + 1) * SECTOR_2048)
          with (length data + (k + 1) * SECTOR_2048) by lia.
        replace (S k * SECTOR_2048) with (length data + k * SECTOR_2048) by lia.
        rewrite !slice_app_r, IHk by lia. reflexivity.
Qed.

(** C10. A source of [2048*N + L] bytes with [0 < L < 2048] gives [N] frames
    of 2352 bytes and then a last frame of [L + 304] bytes: 16 zero bytes,
    the [L] bytes of the last chunk, 288 zero bytes. The length of the output
    is then no multiple of 2352. *)
Theorem userToRaw_short_last_chunk (N L : nat) (source : list byte) :
  length source = SECTOR_2048 * N + L -> 0 < L -> L < SECTOR_2048 ->
  let last := drop (SECTOR_2048 * N) source in
  (forall k, k < N ->
     Py.slice (k * SECTOR_2352) ((k + 1) * SECTOR_2352) (userToRaw source) =
     replicate 16 x00 ++
     Py.slice (k * SECTOR_2048) ((k + 1) * SECTOR_2048) source ++
     replicate 288 x00) /\
  drop (N * SECTOR_2352) (userToRaw source) =
    replicate 16 x00 ++ last ++ replicate 288 x00 /\
  length last = L /\
  length (userToRaw source) = N * SECTOR_2352 + (L + 304) /\
  length (userToRaw source) mod SECTOR_2352 <> 0.
Proof.
  intros Hlen HL0 HL last. unfold userToRaw.
  set (body := take (SECTOR_2048 * N) source).
  assert (Hb : length body = N * SECTOR_2048).
  { subst body. rewrite length_take. lia. }
  assert (Hlast : length last = L).
  { subst last. rewrite length_drop. lia. }
  assert (Hsrc : source = body ++ last).
  { subst body last. symmetry. apply take_drop. }
  destruct (iso_to_bin_loop_whole N body Hb) as [Hwl Hwk].
  assert (Hout : iso_to_bin_loop source [] =
                 iso_to_bin_loop body [] ++ iso_to_bin_frame last).
  { rewrite Hsrc at 1. rewrite (iso_to_bin_loop_whole_app N) by done.
    rewrite (iso_to_bin_loop_short last); [reflexivity | | lia].
    intros ->. simpl in Hlast. lia. }
  rewrite Hout.
  assert (Htot : length (iso_to_bin_loop body [] ++ iso_to_bin_frame last) =
                 N * SECTOR_2352 + (L + 304)).
  { rewrite length_app, Hwl, iso_to_bin_frame_length, Hlast. reflexivity. }
  split; [|split; [|split; [|split]]].
  - intros k Hk.
    assert ((k + 1) * SECTOR_2352 <= N * SECTOR_2352) by nia.
    assert ((k + 1) * SECTOR_2048 <= N * SECTOR_2048) by nia.
    rewrite slice_app_l, Hwk, iso_to_bin_frame_eq by lia.
    rewrite Hsrc, slice_app_l by lia. reflexivity.
  - rewrite <- Hwl, drop_app_length. apply iso_to_bin_frame_eq.
  - exact Hlast.
  - exact Htot.
  - rewrite Htot, Nat.add_comm, Nat.Div0.mod_add.
    unfold SECTOR_2048, SECTOR_2352 in *.
    rewrite Nat.mod_small; lia.
Qed.

(** C10 at a source of 2049 bytes: one whole chunk and one byte more. *)
Lemma userToRaw_short_last_chunk_witness :
  let source := replicate 2048 x01 ++ [x02] in
  length source = SECTOR_2048 * 1 + 1 /\ 0 < 1 /\ 1 < SECTOR_2048 /\
  drop (1 * SECTOR_2352) (userToRaw source) =
    replicate 16 x00 ++ drop (SECTOR_2048 * 1) source ++ replicate 288 x00 /\
  length (userToRaw source) = 1 * SECTOR_2352 + (1 + 304) /\
  length (userToRaw source) mod SECTOR_2352 <> 0.
Proof.
  intros source.
  assert (Hlen : length source = SECTOR_2048 * 1 + 1) by (vm_compute; reflexivity).
  assert (H0 : 0 < 1) by lia.
  assert (H1 : 1 < SECTOR_2048) by (unfold SECTOR_2048; lia).
  destruct (userToRaw_short_last_chunk 1 1 source Hlen H0 H1)
    as (_ & Hlast & _ & Htot & Hmod).
  split; [exact Hlen|]. split; [exact H0|]. split; [exact H1|].
  split; [exact Hlast|]. split; [exact Htot | exact Hmod].
Defined.

(** C7. The frame written for a chunk is 2352 bytes long only when the chunk
    has 2048 bytes. For the source of one byte 01 the only frame written has
    305 bytes: 16 zero bytes, the byte, 288 zero bytes. *)
Theorem iso_to_bin_short_chunk_frame :
  iso_to_bin_loop [x01] [] = replicate 16 x00 ++ [x01] ++ replicate 288 x00 /\
  length (iso_to_bin_loop [x01] []) = 305 /\
  length (iso_to_bin_loop [x01] []) <> SECTOR_2352.
Proof.
  rewrite iso_to_bin_loop_short, iso_to_bin_frame_eq;
    [| discriminate | unfold SECTOR_2048; simpl; lia].
  split; [reflexivity | split; [reflexivity | discriminate]].
Qed.

(** ** Round trip *)

(** C2, as stated, fails: a payload of one byte comes back with 288 zero
    bytes after it. *)
Lemma userToRaw_rawToUser_one_byte :
  rawToUser (userToRaw [x01]) = [x01] ++ replicate 288 x00 /\
  rawToUser (userToRaw [x01]) <> [x01].
Proof.
  unfold userToRaw, rawToUser.
  rewrite iso_to_bin_loop_short, iso_to_bin_frame_eq;
    [| discriminate | unfold SECTOR_2048; simpl; lia].
  rewrite bin_to_iso_loop_short, bin_to_iso_payload_2352;
    [| discriminate | unfold SECTOR_2352; simpl; lia].
  split; [reflexivity | discriminate].
Qed.

(** C2, amended. A payload made of whole 2048-byte sectors comes back
    unchanged from [userToRaw] followed by [rawToUser]. *)
Theorem userToRaw_rawToUser_whole (N : nat) (payload : list byte) :
  length payload = N * SECTOR_2048 ->
  rawToUser (userToRaw payload) = payload.
Proof.
  unfold userToRaw, rawToUser. pose proof SECTOR_2048_pos as Hpos.
  revert payload. induction N as [|N IH]; intros payload Hlen.
  - destruct payload; [|discriminate].
    rewrite iso_to_bin_loop_nil, bin_to_iso_loop_nil. reflexivity.
  - rewrite <- (take_drop SECTOR_2048 payload) at 1.
    assert (Hs : length (take SECTOR_2048 payload) = SECTOR_2048)
      by (rewrite length_take; lia).
    assert (Hr : length (drop SECTOR_2048 payload) = N * SECTOR_2048)
      by (rewrite length_drop; lia).
    rewrite iso_to_bin_loop_chunk by done.
    rewrite bin_to_iso_loop_chunk;
      [| apply SECTOR_2352_pos | rewrite iso_to_bin_frame_length, Hs; reflexivity].
    rewrite iso_to_bin_frame_payload, IH by done.
    apply take_drop.
Qed.

Lemma userToRaw_rawToUser_whole_witness :
  let payload := replicate 2048 x01 ++ replicate 2048 x02 in
  length payload = 2 * SECTOR_2048 /\
  rawToUser (userToRaw payload) = payload.
Proof.
  intros payload.
  assert (Hlen : length payload = 2 * SECTOR_2048) by (vm_compute; reflexivity).
  split; [exact Hlen | exact (userToRaw_rawToUser_whole 2 payload Hlen)].
Defined.

(** ** The CUE parser *)

Lemma parse_cue_loop_app cue_path f g bin_file mode :
  parse_cue_loop cue_path (f ++ g) bin_file mode =
  match parse_cue_loop cue_path f bin_file mode with
  | Return (bin_file', mode') => parse_cue_loop cue_path g bin_file' mode'
  | other => other
  end.
Proof.
  revert bin_file mode. induction f as [|line f IH]; intros bin_file mode; simpl.
  - reflexivity.
  - destruct (parse_cue_line cue_path line bin_file mode) as [[b m]| |]; auto.
Qed.

(** What [parse_cue] returns was in both slots when the loop ended. *)
Lemma parse_cue_Return cue_path f bin_file mode :
  parse_cue cue_path f = Return (bin_file, mode) ->
  parse_cue_loop cue_path f None None = Return (Some bin_file, Some mode).
Proof.
  unfold parse_cue.
  destruct (parse_cue_loop cue_path f None None) as [[[[|c s]|] [[|m]|]]| |];
    intros H; try discriminate; congruence.
Qed.

(** The ways in which the loop ends. *)
Lemma parse_cue_loop_outcomes cue_path f bin_file mode :
  (exists st, parse_cue_loop cue_path f bin_file mode = Return st) \/
  parse_cue_loop cue_path f bin_file mode = SysExit (UnsupportedTrack cue_path) \/
  parse_cue_loop cue_path f bin_file mode = SysExit (UnsupportedSectorMode cue_path) \/
  parse_cue_loop cue_path f bin_file mode = Raise IndexError.
Proof.
  revert bin_file mode. induction f as [|line f IH]; intros bin_file mode; simpl.
  - left. eauto.
  - assert (Hline :
      (exists b m, parse_cue_line cue_path line bin_file mode = Return (b, m)) \/
      parse_cue_line cue_path line bin_file mode = SysExit (UnsupportedTrack cue_path) \/
      parse_cue_line cue_path line bin_file mode = SysExit (UnsupportedSectorMode cue_path) \/
      parse_cue_line cue_path line bin_file mode = Raise IndexError).
    { unfold parse_cue_line. repeat case_match; eauto. }
    destruct Hline as [(b & m & ->)|[->|[->| ->]]]; auto.
Qed.

(** X17. [parse_cue] returns a descriptor, leaves with one of its three
    messages, or raises [IndexError]: there is no other way out of it once the
    sheet is open. *)
Lemma parse_cue_outcomes cue_path f :
  (exists d, parse_cue cue_path f = Return d) \/
  parse_cue cue_path f = SysExit (UnsupportedTrack cue_path) \/
  parse_cue cue_path f = SysExit (UnsupportedSectorMode cue_path) \/
  parse_cue cue_path f = SysExit (InvalidCue cue_path) \/
  parse_cue cue_path f = Raise IndexError.
Proof.
  unfold parse_cue.
  destruct (parse_cue_loop_outcomes cue_path f None None)
    as [[st ->]|[->|[->| ->]]]; auto.
  destruct st as [[[|c s]|] [[|m]|]]; eauto 6.
Qed.

(** The name that [parse_cue] returns is cut out of a line already turned to
    upper case, so it has no lower-case letter, whatever the sheet says. *)
Lemma upper_char_idem c : Str.upper_char (Str.upper_char c) = Str.upper_char c.
Proof. destruct c as [[] [] [] [] [] [] [] []]; reflexivity. Qed.

Lemma upper_cons c s :
  Str.upper (String c s) = String (Str.upper_char c) (Str.upper s).
Proof. reflexivity. Qed.

Lemma upper_idem s : Str.upper (Str.upper s) = Str.upper s.
Proof.
  induction s as [|c s IH]; [reflexivity|].
  rewrite !upper_cons, upper_char_idem, IH. reflexivity.
Qed.

Lemma split_upper sep s :
  Str.upper s = s -> Forall (fun p => Str.upper p = p) (Str.split sep s).
Proof.
  induction s as [|c s IH]; intros Hs.
  - repeat constructor.
  - rewrite upper_cons in Hs. injection Hs as Hc Hs'. specialize (IH Hs').
    cbn [Str.split].
    destruct (Ascii.eqb c sep).
    + constructor; [reflexivity | exact IH].
    + destruct (Str.split sep s) as [|p ps].
      * constructor; [|constructor]. rewrite upper_cons, Hc. reflexivity.
      * inversion IH as [|? ? Hp Hps]; subst.
        constructor; [|exact Hps]. rewrite upper_cons, Hc, Hp. reflexivity.
Qed.

Lemma parse_cue_loop_upper cue_path f bin_file mode bin_file' mode' :
  (forall n, bin_file = Some n -> Str.upper n = n) ->
  parse_cue_loop cue_path f bin_file mode = Return (bin_file', mode') ->
  forall n, bin_file' = Some n -> Str.upper n = n.
Proof.
  revert bin_file mode. induction f as [|line f IH]; simpl; intros bin_file mode Hb Hr.
  - injection Hr as H1 H2. subst. exact Hb.
  - destruct (parse_cue_line cue_path line bin_file mode) as [[b m]| |] eqn:Hline;
      try discriminate.
    apply (IH b m); [|exact Hr].
    unfold parse_cue_line in Hline.
    repeat case_match; try discriminate;
      injection Hline as Hb' Hm'; subst b m; try exact Hb.
    intros n [= <-].
    match goal with
    | H : Str.split _ _ !! 1 = Some _ |- _ =>
        apply (proj1 (Forall_lookup _ _) (split_upper _ _ (upper_idem _)) _ _ H)
    end.
Qed.

(** X18. The name that [parse_cue] returns has no lower-case letter: it is
    its own upper-case form, whatever the case of the name in the sheet. *)
Lemma parse_cue_name_upper cue_path f bin_file mode :
  parse_cue cue_path f = Return (bin_file, mode) -> Str.upper bin_file = bin_file.
Proof.
  intros H%parse_cue_Return.
  eapply parse_cue_loop_upper; [|exact H|reflexivity].
  intros n Hn. discriminate Hn.
Qed.

(** C3. From the sheet with the lines [FILE "x.bin" BINARY],
    [TRACK 01 MODE1/2352] and [INDEX 01 00:00:00], [parse_cue] returns the
    name in upper case, [X.BIN], not the name [x.bin] that the sheet gives. *)
Theorem parse_cue_upper_case_name :
  parse_cue game_cue (Str.file_lines sheet_x_bin) = Return ("X.BIN", SECTOR_2352) /\
  parse_cue game_cue (Str.file_lines sheet_x_bin) <> Return ("x.bin", SECTOR_2352).
Proof. split; [vm_compute; reflexivity | vm_compute; discriminate]. Qed.

(** C5. A FILE line without a double quote makes [parse_cue] raise
    [IndexError]: neither a descriptor nor one of the three errors. *)
Theorem parse_cue_file_without_quote :
  parse_cue game_cue (Str.file_lines sheet_no_quote) = Raise IndexError.
Proof. vm_compute. reflexivity. Qed.

(** C4, as stated, fails: a sheet with two FILE lines and two TRACK lines
    gives a descriptor, built from the last of each. *)
Lemma parse_cue_two_declarations :
  length (filter (fun l => is_file_line l = true) (Str.file_lines sheet_two_files)) = 2 /\
  length (filter (fun l => is_track_line l = true) (Str.file_lines sheet_two_files)) = 2 /\
  parse_cue game_cue (Str.file_lines sheet_two_files) = Return ("B.BIN", SECTOR_2048).
Proof. vm_compute. auto. Qed.

(** C4, amended. [parse_cue] does not count declarations: a later FILE or
    TRACK line replaces what an earlier one has set. When an ASCII sheet is
    accepted, so is the sheet followed by one more ASCII FILE line with a
    quoted name that is not empty, or by one more ASCII TRACK line of a
    supported data mode, and the descriptor takes the name (in upper case), or
    the mode, from the added line. *)
Theorem parse_cue_later_declaration_wins
    (cue_path : Path) (f : list string) (bin_file : string) (mode : nat) :
  Forall (fun l => ascii_only l = true) f ->
  parse_cue cue_path f = Return (bin_file, mode) ->
  (forall line name,
     ascii_only line = true ->
     is_file_line line = true ->
     Str.split Str.dquote (Str.upper (Str.strip line)) !! 1 = Some name ->
     name <> "" ->
     parse_cue cue_path (f ++ [line]) = Return (name, mode)) /\
  (forall line,
     ascii_only line = true ->
     is_track_line line = true ->
     Str.contains "AUDIO" (Str.upper (Str.strip line)) = false ->
     Str.contains "MODE1/2352" (Str.upper (Str.strip line)) = true ->
     parse_cue cue_path (f ++ [line]) = Return (bin_file, SECTOR_2352)) /\
  (forall line,
     ascii_only line = true ->
     is_track_line line = true ->
     Str.contains "AUDIO" (Str.upper (Str.strip line)) = false ->
     Str.contains "MODE1/2352" (Str.upper (Str.strip line)) = false ->
     Str.contains "MODE1/2048" (Str.upper (Str.strip line)) = true ->
     parse_cue cue_path (f ++ [line]) = Return (bin_file, SECTOR_2048)).
Proof.
  intros _ Hf. pose proof (parse_cue_Return _ _ _ _ Hf) as Hloop.
  assert (Hb : exists c s, bin_file = String c s).
  { unfold parse_cue in Hf. rewrite Hloop in Hf.
    destruct bin_file; [destruct mode; discriminate | eauto]. }
  destruct Hb as (c & s & ->).
  unfold is_track_line, is_file_line.
  split; [|split].
  - intros line name _ Hfile Hname Hne.
    unfold parse_cue. rewrite parse_cue_loop_app, Hloop. simpl.
    unfold parse_cue_line. rewrite Hfile, Hname.
    unfold parse_cue in Hf. rewrite Hloop in Hf.
    destruct name; [congruence|]. destruct mode; [discriminate | congruence].
  - intros line _ [Hnf Ht]%andb_prop Ha Hm.
    apply negb_true_iff in Hnf.
    unfold parse_cue. rewrite parse_cue_loop_app, Hloop. simpl.
    unfold parse_cue_line. rewrite Hnf, Ht, Ha, Hm. reflexivity.
  - intros line _ [Hnf Ht]%andb_prop Ha Hm Hm'.
    apply negb_true_iff in Hnf.
    unfold parse_cue. rewrite parse_cue_loop_app, Hloop. simpl.
    unfold parse_cue_line. rewrite Hnf, Ht, Ha, Hm, Hm'. reflexivity.
Qed.

Lemma parse_cue_later_declaration_wins_witness :
  let f := Str.file_lines (cue_text "x.bin") in
  let file_y := "FILE " +:+ String Str.dquote "y.bin" +:+ String Str.dquote " BINARY" in
  parse_cue game_cue f = Return ("X.BIN", SECTOR_2352) /\
  parse_cue game_cue (f ++ [file_y]) = Return ("Y.BIN", SECTOR_2352) /\
  parse_cue game_cue (f ++ ["TRACK 02 MODE1/2352"]) = Return ("X.BIN", SECTOR_2352) /\
  parse_cue game_cue (f ++ ["TRACK 02 MODE1/2048"]) = Return ("X.BIN", SECTOR_2048).
Proof.
  intros f file_y.
  assert (Ha : Forall (fun l => ascii_only l = true) f)
    by (vm_compute; repeat constructor).
  assert (Hf : parse_cue game_cue f = Return ("X.BIN", SECTOR_2352))
    by (vm_compute; reflexivity).
  destruct (parse_cue_later_declaration_wins game_cue f "X.BIN" SECTOR_2352 Ha Hf)
    as (Hfile & Htrack & Htrack').
  split; [exact Hf | split; [|split]].
  - apply Hfile; [reflexivity | reflexivity | reflexivity | discriminate].
  - apply Htrack; reflexivity.
  - apply Htrack'; reflexivity.
Defined.

(** ** The CUE writer *)

Lemma string_app_assoc (a b c : string) : (a +:+ b) +:+ c = a +:+ (b +:+ c).
Proof.
  induction a as [|x a IH]; [reflexivity|].
  change (String x ((a +:+ b) +:+ c) = String x (a +:+ b +:+ c)).
  rewrite IH. reflexivity.
Qed.

(** C9, as stated, fails: the text written for [x.bin] is not the text made
    of the three lines as listed, since two of them are indented; and for a
    name with a line feed in it the text written has four lines. *)
Lemma cue_text_not_spec_lines :
  cue_text "x.bin" <> unlines (spec_cue_lines "x.bin") /\
  length (Str.file_lines (cue_text ("a" +:+ String Str.LF "b"))) = 4.
Proof. split; [vm_compute; discriminate | vm_compute; reflexivity]. Qed.

(** ** The overwrite check and the converters in the world *)

Lemma check_overwrite_absent path force ask w :
  fs w !! str path = None -> check_overwrite path force ask w = (Return tt, w).
Proof.
  intros H. unfold check_overwrite, bind, exists_. rewrite H.
  rewrite bool_decide_eq_false_2 by (intros [? ?]; discriminate). reflexivity.
Qed.

Lemma check_overwrite_force path ask w :
  check_overwrite path true ask w = (Return tt, w).
Proof.
  unfold check_overwrite, bind, exists_.
  destruct (bool_decide (is_Some (fs w !! str path))); reflexivity.
Qed.

Lemma check_overwrite_fail path w :
  is_Some (fs w !! str path) ->
  check_overwrite path false false w = (SysExit (DestinationExists path), w).
Proof.
  intros H. unfold check_overwrite, bind, exists_.
  rewrite bool_decide_eq_true_2 by done. reflexivity.
Qed.

Lemma check_overwrite_allowed path force ask w :
  fs w !! str path = None \/ force = true ->
  check_overwrite path force ask w = (Return tt, w).
Proof.
  intros [H| ->]; [apply check_overwrite_absent, H | apply check_overwrite_force].
Qed.

(** A run of [bin_to_iso] that the overwrite check lets through, on a source
    that exists and is not the destination. *)
Lemma bin_to_iso_run bin_path iso_path sector_size force ask w source :
  fs w !! str bin_path = Some source ->
  str bin_path <> str iso_path ->
  fs w !! str iso_path = None \/ force = true ->
  bin_to_iso bin_path iso_path sector_size force ask w =
  (Return tt,
   mkWorld (<[str iso_path := bin_to_iso_loop sector_size source []]> (fs w)) (stdin w)).
Proof.
  intros Hsrc Hne Hok. unfold bin_to_iso, bind.
  rewrite check_overwrite_allowed by done.
  unfold open_rb. rewrite Hsrc.
  unfold open_wb, contents, store. cbn [fs stdin].
  rewrite lookup_insert_ne, Hsrc by done. cbn [default].
  rewrite insert_insert_eq. reflexivity.
Qed.

(** A run of [iso_to_bin] that the overwrite checks let through, on a source
    that exists and is neither the BIN nor the CUE to be written. *)
Lemma iso_to_bin_run iso_path bin_path force ask w source :
  let cue_path := with_suffix bin_path ".cue" in
  fs w !! str iso_path = Some source ->
  str iso_path <> str bin_path ->
  fs w !! str bin_path = None \/ force = true ->
  fs w !! str cue_path = None \/ force = true ->
  iso_to_bin iso_path bin_path force ask w =
  (Return tt,
   mkWorld (<[str cue_path := Str.encode (cue_text (name bin_path))]>
              (<[str bin_path := iso_to_bin_loop source []]> (fs w)))
           (stdin w)).
Proof.
  intros cue_path Hsrc Hne Hbin Hcue. unfold iso_to_bin, bind.
  rewrite check_overwrite_allowed by done.
  rewrite check_overwrite_allowed by done.
  unfold open_rb. rewrite Hsrc.
  unfold open_wb, contents, write_text, store. cbn [fs stdin].
  rewrite lookup_insert_ne, Hsrc by done. cbn [default].
  rewrite insert_insert_eq. reflexivity.
Qed.

(** Whole sectors in front of the source are transcoded on their own. *)
Lemma bin_to_iso_loop_whole_app sector_size (N : nat) (a b : list byte) :
  0 < sector_size -> length a = N * sector_size ->
  bin_to_iso_loop sector_size (a ++ b) [] =
  bin_to_iso_loop sector_size a [] ++ bin_to_iso_loop sector_size b [].
Proof.
  intros Hpos. revert a. induction N as [|N IH]; intros a Hlen.
  - destruct a; [|discriminate]. rewrite bin_to_iso_loop_nil. reflexivity.
  - rewrite <- (take_drop sector_size a), <- app_assoc.
    assert (Hs : length (take sector_size a) = sector_size)
      by (rewrite length_take; lia).
    assert (Hr : length (drop sector_size a) = N * sector_size)
      by (rewrite length_drop; lia).
    rewrite (bin_to_iso_loop_chunk _ _ (drop sector_size a ++ b)) by done.
    rewrite (bin_to_iso_loop_chunk _ _ (drop sector_size a)) by done.
    rewrite IH, app_assoc by done. reflexivity.
Qed.

(** C8, as stated, fails: the short chunk at the end is not taken for the
    end of the stream. For a raw sector followed by 20 bytes the loop writes
    the 2048 bytes of the sector and then 4 bytes of the short chunk. *)
Lemma bin_to_iso_short_chunk_written :
  let source := replicate 2352 x01 ++ replicate 20 x07 in
  length source mod SECTOR_2352 <> 0 /\
  bin_to_iso_loop SECTOR_2352 source [] = replicate 2048 x01 ++ replicate 4 x07 /\
  short_chunk_as_end_of_stream SECTOR_2352 source = replicate 2048 x01 /\
  bin_to_iso_loop SECTOR_2352 source [] <>
  short_chunk_as_end_of_stream SECTOR_2352 source.
Proof.
  intros source.
  assert (H1 : bin_to_iso_loop SECTOR_2352 source [] =
               replicate 2048 x01 ++ replicate 4 x07) by (vm_compute; reflexivity).
  assert (H2 : short_chunk_as_end_of_stream SECTOR_2352 source = replicate 2048 x01)
    by (vm_compute; reflexivity).
  split; [vm_compute; discriminate|]. split; [exact H1|]. split; [exact H2|].
  rewrite H1, H2. intros E. apply (f_equal length) in E.
  rewrite length_app, !length_replicate in E. lia.
Qed.

(** C8, amended. A source whose length is no multiple of the sector size does
    not make [bin_to_iso] fail, and no error is signalled. The whole sectors
    are transcoded; the short chunk that [read] returns last is not taken for
    the end of the stream but written like any other chunk (for raw sectors,
    what it has of the bytes 16 to 2063); the next [read] returns nothing and
    the loop ends; [bin_to_iso] returns. *)
Theorem bin_to_iso_short_last_chunk
    (bin_path iso_path : Path) (sector_size : nat) (force ask : bool)
    (w : world) (source : list byte) :
  fs w !! str bin_path = Some source ->
  str bin_path <> str iso_path ->
  fs w !! str iso_path = None \/ force = true ->
  0 < sector_size ->
  length source mod sector_size <> 0 ->
  let whole := length source / sector_size * sector_size in
  bin_to_iso bin_path iso_path sector_size force ask w =
  (Return tt,
   mkWorld (<[str iso_path :=
                bin_to_iso_loop sector_size (take whole source) [] ++
                bin_to_iso_payload sector_size (drop whole source)]> (fs w))
           (stdin w)).
Proof.
  intros Hsrc Hne Hok Hpos Hmod whole.
  rewrite (bin_to_iso_run _ _ _ _ _ _ source) by done.
  do 3 f_equal.
  pose proof (Nat.div_mod_eq (length source) sector_size) as Hdiv.
  pose proof (Nat.mod_upper_bound (length source) sector_size ltac:(lia)) as Hub.
  assert (Hw : whole = sector_size * (length source / sector_size))
    by (subst whole; lia).
  assert (Ht : length (take whole source) = length source / sector_size * sector_size).
  { rewrite length_take. lia. }
  rewrite <- (take_drop whole source) at 1.
  rewrite (bin_to_iso_loop_whole_app _ _ _ _ Hpos Ht).
  rewrite (bin_to_iso_loop_short _ (drop whole source)); [reflexivity | |].
  - intros Hnil. apply (f_equal length) in Hnil.
    rewrite length_drop in Hnil. simpl in Hnil. lia.
  - rewrite length_drop. lia.
Qed.

Lemma bin_to_iso_short_last_chunk_witness :
  let source := replicate 20 x07 in
  let w := mkWorld {[ str game_bin := source ]} [] in
  fs w !! str game_bin = Some source /\
  str game_bin <> str game_iso /\
  (fs w !! str game_iso = None \/ false = true) /\
  0 < SECTOR_2352 /\
  length source mod SECTOR_2352 <> 0 /\
  bin_to_iso game_bin game_iso SECTOR_2352 false false w =
  (Return tt,
   mkWorld (<[str game_iso := [x07; x07; x07; x07]]> (fs w)) (stdin w)).
Proof.
  intros source w.
  assert (H1 : fs w !! str game_bin = Some source) by reflexivity.
  assert (H2 : str game_bin <> str game_iso) by discriminate.
  assert (H3 : fs w !! str game_iso = None \/ false = true) by (left; reflexivity).
  assert (H4 : 0 < SECTOR_2352) by (unfold SECTOR_2352; lia).
  assert (H5 : length source mod SECTOR_2352 <> 0) by (vm_compute; discriminate).
  split; [exact H1|]. split; [exact H2|]. split; [exact H3|].
  split; [exact H4|]. split; [exact H5|].
  exact (bin_to_iso_short_last_chunk game_bin game_iso SECTOR_2352 false false
           w source H1 H2 H3 H4 H5).
Defined.

(** C6. With neither [-f] nor [-a], a destination that exists stops the
    conversion in [check_overwrite], before any file is opened for writing:
    the call leaves through [error] and the world, hence every byte of the
    destination, is as before. For [iso_to_bin] the destinations are the BIN
    and the CUE next to it. *)
Theorem overwrite_fail_keeps_destination (w : world) (dest : Path) :
  is_Some (fs w !! str dest) ->
  (forall bin_path sector_size,
     bin_to_iso bin_path dest sector_size false false w =
     (SysExit (DestinationExists dest), w)) /\
  (forall iso_path,
     iso_to_bin iso_path dest false false w =
     (SysExit (DestinationExists dest), w)) /\
  (forall iso_path bin_path,
     with_suffix bin_path ".cue" = dest ->
     exists path,
       iso_to_bin iso_path bin_path false false w =
       (SysExit (DestinationExists path), w)).
Proof.
  intros Hex. split; [|split].
  - intros bin_path sector_size. unfold bin_to_iso, bind.
    rewrite check_overwrite_fail by done. reflexivity.
  - intros iso_path. unfold iso_to_bin, bind.
    rewrite check_overwrite_fail by done. reflexivity.
  - intros iso_path bin_path <-. unfold iso_to_bin, bind.
    destruct (fs w !! str bin_path) as [old|] eqn:Hbin.
    + exists bin_path. rewrite check_overwrite_fail by (rewrite Hbin; eauto).
      reflexivity.
    + exists (with_suffix bin_path ".cue").
      rewrite check_overwrite_absent by done.
      rewrite check_overwrite_fail by done. reflexivity.
Qed.

Lemma overwrite_fail_keeps_destination_witness :
  let w := mkWorld {[ str game_bin := [x01]; str game_iso := [x02] ]} [] in
  is_Some (fs w !! str game_iso) /\
  is_Some (fs w !! str game_bin) /\
  bin_to_iso game_bin game_iso SECTOR_2352 false false w =
    (SysExit (DestinationExists game_iso), w) /\
  iso_to_bin game_iso game_bin false false w =
    (SysExit (DestinationExists game_bin), w).
Proof.
  intros w.
  assert (Hiso : is_Some (fs w !! str game_iso)) by (exists [x02]; reflexivity).
  assert (Hbin : is_Some (fs w !! str game_bin)) by (exists [x01]; reflexivity).
  destruct (overwrite_fail_keeps_destination w game_iso Hiso) as (Hb & _ & _).
  destruct (overwrite_fail_keeps_destination w game_bin Hbin) as (_ & Hi & _).
  split; [exact Hiso|]. split; [exact Hbin|]. split; [apply Hb | apply Hi].
Defined.

(** * Further properties *)

(** ** The loops *)

Lemma bin_to_iso_payload_other sector_size sector :
  sector_size <> SECTOR_2352 -> bin_to_iso_payload sector_size sector = sector.
Proof. intros H. unfold bin_to_iso_payload. destruct (decide _); [contradiction | reflexivity]. Qed.

(** X1. With a sector size other than 2352 (2048 for a MODE1/2048 sheet) the
    loop of [bin_to_iso] copies the source as it is, whatever its length. *)
Theorem bin_to_iso_loop_verbatim (sector_size : nat) (source : list byte) :
  0 < sector_size -> sector_size <> SECTOR_2352 ->
  bin_to_iso_loop sector_size source [] = source.
Proof.
  intros Hpos Hne.
  remember (length source) as m eqn:Hm.
  revert source Hm. induction m as [m IH] using lt_wf_ind. intros source Hm.
  destruct source as [|b source].
  - apply bin_to_iso_loop_nil.
  - rewrite bin_to_iso_loop_step by (lia || congruence).
    rewrite app_nil_l, bin_to_iso_loop_acc, bin_to_iso_payload_other by done.
    rewrite (IH (length (drop sector_size (b :: source)))).
    + apply take_drop.
    + subst m. rewrite length_drop. simpl. lia.
    + reflexivity.
Qed.

Lemma bin_to_iso_loop_verbatim_witness :
  0 < SECTOR_2048 /\ SECTOR_2048 <> SECTOR_2352 /\
  bin_to_iso_loop SECTOR_2048 (replicate 2050 x05) [] = replicate 2050 x05.
Proof.
  assert (H1 : 0 < SECTOR_2048) by (unfold SECTOR_2048; lia).
  assert (H2 : SECTOR_2048 <> SECTOR_2352) by discriminate.
  split; [exact H1|]. split; [exact H2|].
  exact (bin_to_iso_loop_verbatim SECTOR_2048 (replicate 2050 x05) H1 H2).
Defined.

(** X2. Raw sectors are transcoded one by one: the output for a source that
    starts with whole sectors is the output for these sectors followed by the
    output for the rest. *)
Theorem rawToUser_app (N : nat) (a b : list byte) :
  length a = N * SECTOR_2352 ->
  rawToUser (a ++ b) = rawToUser a ++ rawToUser b.
Proof.
  intros Hlen. unfold rawToUser.
  apply (bin_to_iso_loop_whole_app _ N); [apply SECTOR_2352_pos | exact Hlen].
Qed.

Lemma rawToUser_app_witness :
  let a := replicate 2352 x01 in
  let b := replicate 30 x02 in
  length a = 1 * SECTOR_2352 /\ rawToUser (a ++ b) = rawToUser a ++ rawToUser b.
Proof.
  intros a b.
  assert (H : length a = 1 * SECTOR_2352) by (vm_compute; reflexivity).
  split; [exact H | exact (rawToUser_app 1 a b H)].
Defined.

(** X3. [N] whole chunks of 2048 bytes give [N] frames of 2352 bytes in
    source order: frame [k] is 16 zero bytes, chunk [k], 288 zero bytes. *)
Theorem userToRaw_whole_frames (N : nat) (source : list byte) :
  length source = N * SECTOR_2048 ->
  length (userToRaw source) = N * SECTOR_2352 /\
  forall k, k < N ->
    Py.slice (k * SECTOR_2352) ((k + 1) * SECTOR_2352) (userToRaw source) =
    replicate 16 x00 ++
    Py.slice (k * SECTOR_2048) ((k + 1) * SECTOR_2048) source ++
    replicate 288 x00.
Proof.
  intros Hlen. unfold userToRaw.
  destruct (iso_to_bin_loop_whole N source Hlen) as [Hl Hk].
  split; [exact Hl|]. intros k Hlt.
  rewrite Hk, iso_to_bin_frame_eq by done. reflexivity.
Qed.

Lemma userToRaw_whole_frames_witness :
  let source := replicate 2048 x01 ++ replicate 2048 x02 in
  length source = 2 * SECTOR_2048 /\
  length (userToRaw source) = 2 * SECTOR_2352 /\
  Py.slice (1 * SECTOR_2352) ((1 + 1) * SECTOR_2352) (userToRaw source) =
    replicate 16 x00 ++
    Py.slice (1 * SECTOR_2048) ((1 + 1) * SECTOR_2048) source ++
    replicate 288 x00.
Proof.
  intros source.
  assert (H : length source = 2 * SECTOR_2048) by (vm_compute; reflexivity).
  destruct (userToRaw_whole_frames 2 source H) as [Hl Hk].
  split; [exact H|]. split; [exact Hl | apply Hk; lia].
Defined.

(** Whole chunks go through both loops unchanged, in front of the rest. *)
Lemma round_trip_whole_app (N : nat) (a b : list byte) :
  length a = N * SECTOR_2048 ->
  rawToUser (userToRaw (a ++ b)) = a ++ rawToUser (userToRaw b).
Proof.
  unfold userToRaw, rawToUser. intros Hlen.
  rewrite (iso_to_bin_loop_whole_app N) by done.
  destruct (iso_to_bin_loop_whole N a Hlen) as [Hl _].
  rewrite (bin_to_iso_loop_whole_app _ N) by (apply SECTOR_2352_pos || done).
  f_equal. clear b Hl.
  pose proof SECTOR_2048_pos as Hpos.
  revert a Hlen. induction N as [|N IH]; intros a Hlen.
  - destruct a; [|discriminate].
    rewrite iso_to_bin_loop_nil, bin_to_iso_loop_nil. reflexivity.
  - rewrite <- (take_drop SECTOR_2048 a) at 1.
    assert (Hs : length (take SECTOR_2048 a) = SECTOR_2048)
      by (rewrite length_take; lia).
    assert (Hr : length (drop SECTOR_2048 a) = N * SECTOR_2048)
      by (rewrite length_drop; lia).
    rewrite iso_to_bin_loop_chunk by done.
    rewrite bin_to_iso_loop_chunk;
      [| apply SECTOR_2352_pos | rewrite iso_to_bin_frame_length, Hs; reflexivity].
    rewrite iso_to_bin_frame_payload, IH by done.
    apply take_drop.
Qed.

(** A payload shorter than a sector comes back with zero bytes after it. *)
Lemma round_trip_short (b : list byte) :
  b <> [] -> length b < SECTOR_2048 ->
  rawToUser (userToRaw b) = b ++ replicate (288 `min` (SECTOR_2048 - length b)) x00.
Proof.
  intros Hne Hl. unfold userToRaw, rawToUser.
  rewrite iso_to_bin_loop_short by (done || lia).
  rewrite bin_to_iso_loop_short.
  - rewrite bin_to_iso_payload_2352, iso_to_bin_frame_eq.
    change DATA_OFFSET_2352 with (length (replicate 16 x00) + 0) at 1.
    change DATA_OFFSET_2352 with (length (replicate 16 x00)).
    rewrite slice_app_r. unfold Py.slice. rewrite Nat.sub_0_r, drop_0.
    rewrite take_app_ge by lia. rewrite take_replicate, Nat.min_comm. reflexivity.
  - rewrite iso_to_bin_frame_eq. destruct b; [congruence | discriminate].
  - rewrite iso_to_bin_frame_length. unfold SECTOR_2048, SECTOR_2352 in *. lia.
Qed.

(** X4. The round trip of any payload: [userToRaw] followed by [rawToUser]
    gives the payload back, followed by zero bytes when its length is no
    multiple of 2048: 288 of them, or as many as fill the last sector when
    that is fewer. *)
Theorem userToRaw_rawToUser_padding (payload : list byte) :
  rawToUser (userToRaw payload) =
  payload ++ replicate (round_trip_padding (length payload)) x00.
Proof.
  pose proof SECTOR_2048_pos as Hpos.
  pose proof (Nat.div_mod_eq (length payload) SECTOR_2048) as Hdiv.
  pose proof (Nat.mod_upper_bound (length payload) SECTOR_2048 ltac:(lia)) as Hub.
  set (N := length payload / SECTOR_2048) in *.
  set (L := length payload mod SECTOR_2048) in *.
  assert (Ha : length (take (N * SECTOR_2048) payload) = N * SECTOR_2048)
    by (rewrite length_take; lia).
  assert (Hb : length (drop (N * SECTOR_2048) payload) = L)
    by (rewrite length_drop; lia).
  rewrite <- (take_drop (N * SECTOR_2048) payload) at 1.
  rewrite (round_trip_whole_app N) by done.
  unfold round_trip_padding. fold L.
  destruct (decide (L = 0)) as [H0|H0].
  - destruct (drop (N * SECTOR_2048) payload) as [|x t] eqn:Hd;
      [|simpl in Hb; lia].
    unfold userToRaw, rawToUser.
    rewrite iso_to_bin_loop_nil, bin_to_iso_loop_nil.
    rewrite <- (take_drop (N * SECTOR_2048) payload) at 2. rewrite Hd.
    symmetry. apply app_nil_r.
  - rewrite round_trip_short; [| intros E; rewrite E in Hb; simpl in Hb; lia | lia].
    rewrite Hb, app_assoc, take_drop. reflexivity.
Qed.

(** X5. What follows the last whole raw sector is lost when it has at most
    16 bytes: it ends before the user data would start. *)
Theorem rawToUser_drops_short_tail (N : nat) (a t : list byte) :
  length a = N * SECTOR_2352 -> length t <= DATA_OFFSET_2352 ->
  rawToUser (a ++ t) = rawToUser a.
Proof.
  intros Ha Ht. unfold rawToUser.
  rewrite (bin_to_iso_loop_whole_app _ N) by (apply SECTOR_2352_pos || done).
  destruct t as [|x t].
  - rewrite bin_to_iso_loop_nil, app_nil_r. reflexivity.
  - rewrite (bin_to_iso_loop_short _ (x :: t)).
    + rewrite bin_to_iso_payload_2352. unfold Py.slice.
      rewrite drop_ge by lia. rewrite take_nil, app_nil_r. reflexivity.
    + discriminate.
    + unfold DATA_OFFSET_2352, SECTOR_2352 in *. lia.
Qed.

Lemma rawToUser_drops_short_tail_witness :
  let a := replicate 2352 x01 in
  let t := replicate 16 x02 in
  length a = 1 * SECTOR_2352 /\ length t <= DATA_OFFSET_2352 /\
  rawToUser (a ++ t) = rawToUser a.
Proof.
  intros a t.
  assert (Ha : length a = 1 * SECTOR_2352) by (vm_compute; reflexivity).
  assert (Ht : length t <= DATA_OFFSET_2352) by (vm_compute; lia).
  split; [exact Ha|]. split; [exact Ht|].
  exact (rawToUser_drops_short_tail 1 a t Ha Ht).
Defined.

(** ** The overwrite prompt *)

Lemma ask_overwrite_loop_skip junk answers :
  Forall no_answer junk ->
  ask_overwrite_loop (junk ++ answers) = ask_overwrite_loop answers.
Proof.
  induction 1 as [|line junk [Hy Hn] _ IH]; [reflexivity|].
  unfold is_yes, is_no in Hy, Hn. simpl. rewrite Hy, Hn. exact IH.
Qed.

Lemma is_no_not_yes line : is_no line = true -> is_yes line = false.
Proof.
  unfold is_no, is_yes. intros H%bool_decide_eq_true.
  apply bool_decide_eq_false. intros Hy.
  set (ans := Str.lower (Str.strip line)) in *.
  repeat (apply elem_of_cons in H as [H|H]; [rewrite H in Hy; clear H|]);
    [| | |apply elem_of_nil in H; contradiction];
  repeat (apply elem_of_cons in Hy as [Hy|Hy]; [discriminate|]);
    apply elem_of_nil in Hy; contradiction.
Qed.

(** X6. With [-a] and a destination that exists, [check_overwrite] reads
    lines until one is an answer: lines that are no answer are passed over;
    [y] or [yes] (in any case, with spaces around) lets the conversion go on;
    [n], [no] or an empty line ends the run with [Operation aborted by user].
    The lines read are used up, the files are as before. This for ASCII
    lines. *)
Theorem check_overwrite_ask (path : Path) (w : world)
    (junk : list string) (line : string) (rest : list string) :
  is_Some (fs w !! str path) ->
  stdin w = junk ++ line :: rest ->
  Forall (fun l => ascii_only l = true) (junk ++ [line]) ->
  Forall no_answer junk ->
  (is_yes line = true ->
   check_overwrite path false true w = (Return tt, mkWorld (fs w) rest)) /\
  (is_no line = true ->
   check_overwrite path false true w =
   (SysExit "Operation aborted by user", mkWorld (fs w) rest)).
Proof.
  intros Hex Hin _ Hjunk.
  assert (Hrun : check_overwrite path false true w =
          match ask_overwrite_loop (line :: rest) with
          | (Return true, r) => (Return tt, mkWorld (fs w) r)
          | (Return false, r) => (SysExit "Operation aborted by user", mkWorld (fs w) r)
          | (SysExit m, r) => (SysExit m, mkWorld (fs w) r)
          | (Raise e, r) => (Raise e, mkWorld (fs w) r)
          end).
  { unfold check_overwrite, bind, exists_, ask_overwrite.
    rewrite bool_decide_eq_true_2 by done. cbn [negb].
    rewrite Hin, ask_overwrite_loop_skip by done.
    destruct (ask_overwrite_loop (line :: rest)) as [[[]| |] r]; reflexivity. }
  rewrite Hrun. cbn [ask_overwrite_loop]. split.
  - intros Hy. unfold is_yes in Hy. rewrite Hy. reflexivity.
  - intros Hn. pose proof (is_no_not_yes _ Hn) as Hy.
    unfold is_yes, is_no in Hy, Hn. rewrite Hy, Hn. reflexivity.
Qed.

Lemma check_overwrite_ask_witness :
  let w := mkWorld {[ str game_iso := [x01] ]} ["maybe"; "  YES  "; "later"] in
  let w' := mkWorld {[ str game_iso := [x01] ]} ["what?"; "No"; "later"] in
  check_overwrite game_iso false true w = (Return tt, mkWorld (fs w) ["later"]) /\
  check_overwrite game_iso false true w' =
    (SysExit "Operation aborted by user", mkWorld (fs w') ["later"]).
Proof.
  intros w w'.
  assert (Hex : is_Some (fs w !! str game_iso)) by (exists [x01]; reflexivity).
  assert (Hex' : is_Some (fs w' !! str game_iso)) by (exists [x01]; reflexivity).
  assert (Hj : Forall no_answer ["maybe"])
    by (repeat constructor; vm_compute; reflexivity).
  assert (Hj' : Forall no_answer ["what?"])
    by (repeat constructor; vm_compute; reflexivity).
  assert (Ha : Forall (fun l => ascii_only l = true) (["maybe"] ++ ["  YES  "]))
    by (repeat constructor).
  assert (Ha' : Forall (fun l => ascii_only l = true) (["what?"] ++ ["No"]))
    by (repeat constructor).
  split.
  - apply (check_overwrite_ask game_iso w ["maybe"] "  YES  " ["later"]
             Hex eq_refl Ha Hj).
    vm_compute. reflexivity.
  - apply (check_overwrite_ask game_iso w' ["what?"] "No" ["later"]
             Hex' eq_refl Ha' Hj').
    vm_compute. reflexivity.
Defined.

(** X7. With [-a], a destination that exists and no answer among the ASCII
    lines left on standard input, [check_overwrite] ends with the [EOFError]
    of [input]. *)
Theorem check_overwrite_eof (path : Path) (w : world) :
  is_Some (fs w !! str path) ->
  Forall (fun l => ascii_only l = true) (stdin w) ->
  Forall no_answer (stdin w) ->
  check_overwrite path false true w = (Raise EOFError, mkWorld (fs w) []).
Proof.
  intros Hex _ Hjunk.
  unfold check_overwrite, bind, exists_, ask_overwrite.
  rewrite bool_decide_eq_true_2 by done. cbn [negb].
  rewrite <- (app_nil_r (stdin w)), ask_overwrite_loop_skip by done.
  reflexivity.
Qed.

Lemma check_overwrite_eof_witness :
  let w := mkWorld {[ str game_iso := [x01] ]} ["maybe"; "ok"] in
  check_overwrite game_iso false true w = (Raise EOFError, mkWorld (fs w) []).
Proof.
  intros w.
  assert (Hex : is_Some (fs w !! str game_iso)) by (exists [x01]; reflexivity).
  assert (Ha : Forall (fun l => ascii_only l = true) (stdin w))
    by (repeat constructor).
  assert (Hj : Forall no_answer (stdin w))
    by (repeat constructor; vm_compute; reflexivity).
  exact (check_overwrite_eof game_iso w Hex Ha Hj).
Defined.

Lemma check_overwrite_effect (path : Path) (force ask : bool) (w : world) :
  fs (check_overwrite path force ask w).2 = fs w /\
  (fs w !! str path = None \/ force = true \/ ask = false ->
   stdin (check_overwrite path force ask w).2 = stdin w).
Proof.
  unfold check_overwrite, bind, exists_, ask_overwrite, leave, ret.
  destruct (bool_decide (is_Some (fs w !! str path))) eqn:Hex; cbn [negb].
  - destruct force; [split; reflexivity|]. destruct ask.
    + destruct (ask_overwrite_loop (stdin w)) as [[[]| |] r]; cbn.
      all: split; [reflexivity|].
      all: intros [Hn|[?|?]]; try discriminate.
      all: apply bool_decide_eq_true in Hex; rewrite Hn in Hex;
           destruct Hex; discriminate.
    + split; reflexivity.
  - split; reflexivity.
Qed.

(** X8. [check_overwrite] never changes a file, whatever it is called with
    and however it ends; it reads standard input only when the destination
    exists, [-f] is not given and [-a] is. *)
Theorem check_overwrite_keeps_files (path : Path) (force ask : bool) (w : world) :
  fs (check_overwrite path force ask w).2 = fs w /\
  (fs w !! str path = None \/ force = true \/ ask = false ->
   stdin (check_overwrite path force ask w).2 = stdin w).
Proof. apply check_overwrite_effect. Qed.

Lemma check_overwrite_keeps_files_witness :
  let w := mkWorld {[ str game_iso := [x01] ]} ["y"] in
  fs (check_overwrite game_iso false true w).2 = fs w /\
  stdin (check_overwrite game_iso true true w).2 = stdin w.
Proof.
  intros w. split.
  - apply (check_overwrite_keeps_files game_iso false true w).
  - apply (check_overwrite_keeps_files game_iso true true w). right. left. reflexivity.
Defined.

(** ** The converters in the world *)

Lemma bin_to_iso_missing_source_run
    (bin_path iso_path : Path) (sector_size : nat) (force ask : bool) (w : world) :
  fs w !! str bin_path = None ->
  fs w !! str iso_path = None \/ force = true ->
  bin_to_iso bin_path iso_path sector_size force ask w = (Raise FileNotFoundError, w).
Proof.
  intros Hsrc Hok. unfold bin_to_iso, bind.
  rewrite check_overwrite_allowed by done.
  unfold open_rb. rewrite Hsrc. reflexivity.
Qed.

(** X9. When the BIN to read does not exist, [bin_to_iso] ends with
    [FileNotFoundError] and leaves every file as it is: the source is opened
    before the destination, so an ISO that is there is not truncated, even
    with [-f]. *)
Theorem bin_to_iso_missing_source
    (bin_path iso_path : Path) (sector_size : nat) (force ask : bool) (w : world) :
  fs w !! str bin_path = None ->
  fs w !! str iso_path = None \/ force = true ->
  bin_to_iso bin_path iso_path sector_size force ask w = (Raise FileNotFoundError, w).
Proof. apply bin_to_iso_missing_source_run. Qed.

Lemma bin_to_iso_missing_source_witness :
  let w := mkWorld {[ str game_iso := [x01] ]} [] in
  fs w !! str game_bin = None /\
  (fs w !! str game_iso = None \/ true = true) /\
  bin_to_iso game_bin game_iso SECTOR_2352 true false w = (Raise FileNotFoundError, w).
Proof.
  intros w.
  assert (H1 : fs w !! str game_bin = None) by reflexivity.
  assert (H2 : fs w !! str game_iso = None \/ true = true) by (right; reflexivity).
  split; [exact H1|]. split; [exact H2|].
  exact (bin_to_iso_missing_source game_bin game_iso SECTOR_2352 true false w H1 H2).
Defined.

(** X10. When the ISO to read does not exist, [iso_to_bin] ends with
    [FileNotFoundError] and writes neither the BIN nor the CUE. *)
Theorem iso_to_bin_missing_source
    (iso_path bin_path : Path) (force ask : bool) (w : world) :
  fs w !! str iso_path = None ->
  fs w !! str bin_path = None \/ force = true ->
  fs w !! str (with_suffix bin_path ".cue") = None \/ force = true ->
  iso_to_bin iso_path bin_path force ask w = (Raise FileNotFoundError, w).
Proof.
  intros Hsrc Hbin Hcue. unfold iso_to_bin, bind.
  rewrite check_overwrite_allowed by done.
  rewrite check_overwrite_allowed by done.
  unfold open_rb. rewrite Hsrc. reflexivity.
Qed.

Lemma iso_to_bin_missing_source_witness :
  let w := mkWorld {[ str game_bin := [x01] ]} [] in
  fs w !! str game_iso = None /\
  iso_to_bin game_iso game_bin true false w = (Raise FileNotFoundError, w).
Proof.
  intros w.
  assert (H1 : fs w !! str game_iso = None) by reflexivity.
  split; [exact H1|].
  apply (iso_to_bin_missing_source game_iso game_bin true false w H1);
    right; reflexivity.
Defined.

Lemma check_overwrite_fs path force ask w r w' :
  check_overwrite path force ask w = (r, w') -> fs w' = fs w.
Proof.
  intros H. pose proof (check_overwrite_effect path force ask w) as [Hfs _].
  rewrite H in Hfs. exact Hfs.
Qed.

(** X11. However [bin_to_iso] ends, no file but the ISO to write is
    changed. *)
Theorem bin_to_iso_changes_only_destination
    (bin_path iso_path : Path) (sector_size : nat) (force ask : bool)
    (w : world) (p : string) :
  p <> str iso_path ->
  fs (bin_to_iso bin_path iso_path sector_size force ask w).2 !! p = fs w !! p.
Proof.
  intros Hp. unfold bin_to_iso, bind.
  destruct (check_overwrite iso_path force ask w) as [[[]|m|e] w1] eqn:Hc;
    apply check_overwrite_fs in Hc; cbn [snd]; try (rewrite Hc; reflexivity).
  unfold open_rb.
  destruct (fs w1 !! str bin_path); cbn [snd]; [|rewrite Hc; reflexivity].
  unfold open_wb, contents, store. cbn [snd fs].
  rewrite !lookup_insert_ne, Hc by done. reflexivity.
Qed.

Lemma bin_to_iso_changes_only_destination_witness :
  let w := mkWorld {[ str game_bin := [x01]; str game_cue := [x02] ]} [] in
  str game_cue <> str game_iso /\
  fs (bin_to_iso game_bin game_iso SECTOR_2352 false false w).2 !! str game_cue =
  fs w !! str game_cue.
Proof.
  intros w.
  assert (H : str game_cue <> str game_iso) by discriminate.
  split; [exact H|].
  exact (bin_to_iso_changes_only_destination game_bin game_iso SECTOR_2352
           false false w (str game_cue) H).
Defined.

(** X12. However [iso_to_bin] ends, no file but the BIN and the CUE next to it
    is changed. *)
Theorem iso_to_bin_changes_only_destinations
    (iso_path bin_path : Path) (force ask : bool) (w : world) (p : string) :
  p <> str bin_path -> p <> str (with_suffix bin_path ".cue") ->
  fs (iso_to_bin iso_path bin_path force ask w).2 !! p = fs w !! p.
Proof.
  intros Hb Hc. unfold iso_to_bin, bind.
  destruct (check_overwrite bin_path force ask w) as [[[]|m|e] w1] eqn:H1;
    apply check_overwrite_fs in H1; cbn [snd]; try (rewrite H1; reflexivity).
  destruct (check_overwrite (with_suffix bin_path ".cue") force ask w1)
    as [[[]|m|e] w2] eqn:H2;
    apply check_overwrite_fs in H2; cbn [snd]; try (rewrite H2, H1; reflexivity).
  unfold open_rb.
  destruct (fs w2 !! str iso_path); cbn [snd]; [|rewrite H2, H1; reflexivity].
  unfold open_wb, contents, write_text, store. cbn [snd fs].
  rewrite !lookup_insert_ne, H2, H1 by done. reflexivity.
Qed.

Lemma iso_to_bin_changes_only_destinations_witness :
  let w := mkWorld {[ str game_iso := [x01] ]} [] in
  str game_iso <> str game_bin /\
  str game_iso <> str (with_suffix game_bin ".cue") /\
  fs (iso_to_bin game_iso game_bin false false w).2 !! str game_iso =
  fs w !! str game_iso.
Proof.
  intros w.
  assert (H1 : str game_iso <> str game_bin) by discriminate.
  assert (H2 : str game_iso <> str (with_suffix game_bin ".cue")) by discriminate.
  split; [exact H1|]. split; [exact H2|].
  exact (iso_to_bin_changes_only_destinations game_iso game_bin false false w
           (str game_iso) H1 H2).
Defined.

(** X13. Converting a file onto itself with [-f] empties it: the file is
    truncated when it is opened for writing, before the first [read]. *)
Theorem bin_to_iso_onto_itself
    (path : Path) (sector_size : nat) (ask : bool) (w : world) :
  is_Some (fs w !! str path) ->
  bin_to_iso path path sector_size true ask w =
  (Return tt, mkWorld (<[str path := []]> (fs w)) (stdin w)).
Proof.
  intros [old Hold]. unfold bin_to_iso, bind.
  rewrite check_overwrite_force.
  unfold open_rb. rewrite Hold.
  unfold open_wb, contents, store. cbn [fs stdin].
  rewrite lookup_insert_eq. cbn [default].
  rewrite bin_to_iso_loop_nil, insert_insert_eq. reflexivity.
Qed.

Lemma bin_to_iso_onto_itself_witness :
  let w := mkWorld {[ str game_bin := replicate 2352 x01 ]} [] in
  is_Some (fs w !! str game_bin) /\
  bin_to_iso game_bin game_bin SECTOR_2352 true false w =
  (Return tt, mkWorld (<[str game_bin := []]> (fs w)) (stdin w)).
Proof.
  intros w.
  assert (H : is_Some (fs w !! str game_bin)) by (eexists; reflexivity).
  split; [exact H|].
  exact (bin_to_iso_onto_itself game_bin SECTOR_2352 false w H).
Defined.





(** X16. From an ISO of whole sectors to BIN and CUE and back: [bin_to_iso]
    at sector size 2352 on the BIN that [iso_to_bin] has written gives a file
    with the bytes of the first ISO. With [-f] the second ISO may be the
    first. *)
Theorem iso_to_bin_then_bin_to_iso
    (iso_path bin_path iso_path' : Path) (ask : bool) (w : world)
    (N : nat) (source : list byte) :
  fs w !! str iso_path = Some source ->
  length source = N * SECTOR_2048 ->
  str iso_path <> str bin_path ->
  str bin_path <> str (with_suffix bin_path ".cue") ->
  str bin_path <> str iso_path' ->
  exists w1 w2,
    iso_to_bin iso_path bin_path true ask w = (Return tt, w1) /\
    bin_to_iso bin_path iso_path' SECTOR_2352 true ask w1 = (Return tt, w2) /\
    fs w2 !! str iso_path' = Some source.
Proof.
  intros Hsrc Hlen Hib Hbc Hbi.
  eexists. eexists. split; [|split].
  - apply (iso_to_bin_run _ _ _ _ _ source); auto.
  - apply (bin_to_iso_run _ _ _ _ _ _ (iso_to_bin_loop source [])); auto.
    cbn [fs]. rewrite lookup_insert_ne, lookup_insert_eq by done. reflexivity.
  - cbn [fs]. rewrite lookup_insert_eq. f_equal.
    pose proof (round_trip_whole_app N source [] Hlen) as H.
    rewrite app_nil_r in H. unfold rawToUser, userToRaw in H.
    rewrite H, iso_to_bin_loop_nil, bin_to_iso_loop_nil. apply app_nil_r.
Qed.

Lemma iso_to_bin_then_bin_to_iso_witness :
  let source := replicate 2048 x01 in
  let w := mkWorld {[ str game_iso := source ]} [] in
  exists w1 w2,
    iso_to_bin game_iso game_bin true false w = (Return tt, w1) /\
    bin_to_iso game_bin game_iso SECTOR_2352 true false w1 = (Return tt, w2) /\
    fs w2 !! str game_iso = Some source.
Proof.
  intros source w.
  apply (iso_to_bin_then_bin_to_iso game_iso game_bin game_iso false w 1 source);
    first [reflexivity | discriminate].
Defined.

(** ** The CUE parser, further *)

Lemma parse_cue_loop_mode cue_path f bin_file mode bin_file' mode' :
  (forall m, mode = Some m -> m = SECTOR_2352 \/ m = SECTOR_2048) ->
  parse_cue_loop cue_path f bin_file mode = Return (bin_file', mode') ->
  forall m, mode' = Some m -> m = SECTOR_2352 \/ m = SECTOR_2048.
Proof.
  revert bin_file mode. induction f as [|line f IH]; simpl; intros bin_file mode Hm Hr.
  - injection Hr as H1 H2. subst. exact Hm.
  - destruct (parse_cue_line cue_path line bin_file mode) as [[b m]| |] eqn:Hline;
      try discriminate.
    apply (IH b m); [|exact Hr].
    unfold parse_cue_line in Hline.
    repeat case_match; try discriminate;
      injection Hline as Hb' Hm'; subst b m; try exact Hm.
    + intros m [= <-]. left. reflexivity.
    + intros m [= <-]. right. reflexivity.
Qed.

(** X19. What [parse_cue] returns is fit for [bin_to_iso]: the name is not
    empty and the sector size is 2352 or 2048. *)
Theorem parse_cue_descriptor (cue_path : Path) (f : list string)
    (bin_file : string) (mode : nat) :
  parse_cue cue_path f = Return (bin_file, mode) ->
  bin_file <> "" /\ (mode = SECTOR_2352 \/ mode = SECTOR_2048).
Proof.
  intros H. pose proof (parse_cue_Return _ _ _ _ H) as Hloop. split.
  - unfold parse_cue in H. rewrite Hloop in H.
    destruct bin_file; [destruct mode; discriminate | discriminate].
  - eapply parse_cue_loop_mode; [|exact Hloop|reflexivity].
    intros m Hm. discriminate Hm.
Qed.

Lemma parse_cue_descriptor_witness :
  parse_cue game_cue (Str.file_lines sheet_two_files) = Return ("B.BIN", SECTOR_2048) /\
  "B.BIN" <> "" /\ (SECTOR_2048 = SECTOR_2352 \/ SECTOR_2048 = SECTOR_2048).
Proof.
  assert (H : parse_cue game_cue (Str.file_lines sheet_two_files) =
              Return ("B.BIN", SECTOR_2048)) by (vm_compute; reflexivity).
  split; [exact H|].
  exact (parse_cue_descriptor game_cue _ "B.BIN" SECTOR_2048 H).
Defined.



(** X21. A TRACK line that names neither [AUDIO] nor [MODE1/2352] nor
    [MODE1/2048] (a MODE2 track, for one) ends [parse_cue] with the message
    for unsupported modes, once the lines before it have been read without an
    error. This for ASCII lines. *)
Theorem parse_cue_unsupported_mode (cue_path : Path) (before after : list string)
    (line : string) (st : option string * option nat) :
  Forall (fun l => ascii_only l = true) (before ++ [line]) ->
  parse_cue_loop cue_path before None None = Return st ->
  is_track_line line = true ->
  Str.contains "AUDIO" (Str.upper (Str.strip line)) = false ->
  Str.contains "MODE1/2352" (Str.upper (Str.strip line)) = false ->
  Str.contains "MODE1/2048" (Str.upper (Str.strip line)) = false ->
  parse_cue cue_path (before ++ line :: after) =
  SysExit (UnsupportedSectorMode cue_path).
Proof.
  intros _ Hb [Hnf Ht]%andb_prop Ha H1 H2. apply negb_true_iff in Hnf.
  unfold is_file_line in Hnf.
  unfold parse_cue. rewrite parse_cue_loop_app, Hb. destruct st as [b m].
  cbn [parse_cue_loop]. unfold parse_cue_line. rewrite Hnf, Ht, Ha, H1, H2. reflexivity.
Qed.

Lemma parse_cue_unsupported_mode_witness :
  parse_cue game_cue
    (Str.file_lines (cue_text "x.bin") ++ "TRACK 02 MODE2/2352" :: []) =
  SysExit (UnsupportedSectorMode game_cue).
Proof.
  apply (parse_cue_unsupported_mode game_cue (Str.file_lines (cue_text "x.bin")) []
           "TRACK 02 MODE2/2352" (Some "X.BIN", Some SECTOR_2352));
    [vm_compute; repeat constructor | vm_compute; reflexivity ..].
Defined.

Lemma parse_cue_line_other cue_path line bin_file mode :
  is_file_line line = false -> is_track_line line = false ->
  parse_cue_line cue_path line bin_file mode = Return (bin_file, mode).
Proof.
  unfold is_track_line, is_file_line. intros Hf Ht. rewrite Hf in Ht. cbn in Ht.
  unfold parse_cue_line. rewrite Hf, Ht. reflexivity.
Qed.

Lemma parse_cue_loop_filter cue_path f bin_file mode :
  parse_cue_loop cue_path (filter (fun l => is_file_line l || is_track_line l) f)
    bin_file mode =
  parse_cue_loop cue_path f bin_file mode.
Proof.
  revert bin_file mode. induction f as [|line f IH]; intros bin_file mode.
  - reflexivity.
  - rewrite filter_cons. destruct (decide _) as [Hk|Hk].
    + cbn [parse_cue_loop].
      destruct (parse_cue_line cue_path line bin_file mode) as [[b m]| |]; auto.
    + cbn [parse_cue_loop].
      apply Is_true_false_1, orb_false_iff in Hk as [Hf Ht].
      rewrite parse_cue_line_other by done. apply IH.
Qed.

(** X22. In an ASCII sheet the lines that begin neither with [FILE] nor with
    [TRACK] (INDEX, REM, empty lines, ...) have no part in the result:
    [parse_cue] gives the same for a sheet and for the sheet without them. *)
Theorem parse_cue_ignores_other_lines (cue_path : Path) (f : list string) :
  Forall (fun l => ascii_only l = true) f ->
  parse_cue cue_path (filter (fun l => is_file_line l || is_track_line l) f) =
  parse_cue cue_path f.
Proof. intros _. unfold parse_cue. rewrite parse_cue_loop_filter. reflexivity. Qed.

Lemma parse_cue_ignores_other_lines_witness :
  let f := ["REM a comment"; "FILE " +:+ String Str.dquote "X" +:+ String Str.dquote " BINARY";
            ""; "  TRACK 01 MODE1/2048"; "    INDEX 01 00:00:00"] in
  filter (fun l => is_file_line l || is_track_line l) f =
    ["FILE " +:+ String Str.dquote "X" +:+ String Str.dquote " BINARY";
     "  TRACK 01 MODE1/2048"] /\
  parse_cue game_cue (filter (fun l => is_file_line l || is_track_line l) f) =
  parse_cue game_cue f.
Proof.
  intros f. split; [vm_compute; reflexivity|].
  apply (parse_cue_ignores_other_lines game_cue f). repeat constructor.
Defined.

(** Case analysis on the tests of [parse_cue_line] in a hypothesis. *)
Ltac line_cases H :=
  repeat match type of H with
         | context [if ?c then _ else _] => destruct c eqn:?
         | context [match ?x !! 1 with _ => _ end] => destruct (x !! 1) eqn:?
         end;
  cbn [error] in H.

Lemma parse_cue_loop_no_file cue_path f mode bin_file' mode' :
  Forall (fun l => is_file_line l = false) f ->
  parse_cue_loop cue_path f None mode = Return (bin_file', mode') ->
  bin_file' = None.
Proof.
  intros Hall. revert mode. induction Hall as [|line f Hl _ IH]; simpl; intros mode Hr.
  - congruence.
  - unfold parse_cue_line, is_file_line in *. rewrite Hl in Hr.
    line_cases Hr; try discriminate Hr; eauto.
Qed.

Lemma parse_cue_loop_no_track cue_path f bin_file bin_file' mode' :
  Forall (fun l => is_track_line l = false) f ->
  parse_cue_loop cue_path f bin_file None = Return (bin_file', mode') ->
  mode' = None.
Proof.
  intros Hall. revert bin_file.
  induction Hall as [|line f Hl _ IH]; simpl; intros bin_file Hr.
  - congruence.
  - unfold parse_cue_line, is_track_line, is_file_line in *.
    destruct (Str.startswith (Str.upper (Str.strip line)) "FILE").
    + line_cases Hr; try discriminate Hr; eauto.
    + cbn in Hl. rewrite Hl in Hr. eauto.
Qed.

(** X23. An ASCII sheet needs both declarations: without a FILE line
    [parse_cue] gives no descriptor and ends with one of its three messages;
    without a TRACK line it gives none either and ends with the message for an
    invalid sheet, or with [IndexError] from a FILE line without quote. *)
Theorem parse_cue_missing_declaration (cue_path : Path) (f : list string) :
  Forall (fun l => ascii_only l = true) f ->
  (Forall (fun l => is_file_line l = false) f ->
   parse_cue cue_path f = SysExit (InvalidCue cue_path) \/
   parse_cue cue_path f = SysExit (UnsupportedTrack cue_path) \/
   parse_cue cue_path f = SysExit (UnsupportedSectorMode cue_path)) /\
  (Forall (fun l => is_track_line l = false) f ->
   parse_cue cue_path f = SysExit (InvalidCue cue_path) \/
   parse_cue cue_path f = Raise IndexError).
Proof.
  intros _. split; intros Hall.
  - pose proof (parse_cue_loop_no_file cue_path f None) as Hno.
    unfold parse_cue.
    destruct (parse_cue_loop cue_path f None None) as [[b m]|msg|e] eqn:Hl.
    + rewrite (Hno b m Hall eq_refl). auto.
    + destruct (parse_cue_loop_outcomes cue_path f None None)
        as [[st H]|[H|[H|H]]]; rewrite Hl in H; try discriminate;
        injection H as ->; auto.
    + exfalso. clear Hno. revert Hl. generalize (@None nat) (@None string).
      induction Hall as [|line f Hf _ IH]; simpl; intros m b Hr; [discriminate|].
      unfold parse_cue_line, is_file_line in *. rewrite Hf in Hr.
      line_cases Hr; try discriminate Hr; eauto.
  - pose proof (parse_cue_loop_no_track cue_path f None) as Hno.
    unfold parse_cue.
    destruct (parse_cue_loop cue_path f None None) as [[b m]|msg|e] eqn:Hl.
    + rewrite (Hno b m Hall eq_refl). destruct b as [[|c s]|]; auto.
    + exfalso. clear Hno. revert Hl. generalize (@None nat) (@None string).
      induction Hall as [|line f Hf _ IH]; simpl; intros m b Hr; [discriminate|].
      unfold parse_cue_line, is_track_line, is_file_line in *.
      destruct (Str.startswith (Str.upper (Str.strip line)) "FILE").
      * line_cases Hr; try discriminate Hr; eauto.
      * cbn in Hf. rewrite Hf in Hr. eauto.
    + destruct (parse_cue_loop_outcomes cue_path f None None)
        as [[st H]|[H|[H|H]]]; rewrite Hl in H; try discriminate;
        injection H as ->; auto.
Qed.

Lemma parse_cue_missing_declaration_witness :
  parse_cue game_cue ["  TRACK 01 MODE1/2352"; "    INDEX 01 00:00:00"] =
    SysExit (InvalidCue game_cue) /\
  parse_cue game_cue ["FILE x.bin BINARY"] = Raise IndexError.
Proof.
  assert (Ha : Forall (fun l => ascii_only l = true)
                 ["  TRACK 01 MODE1/2352"; "    INDEX 01 00:00:00"])
    by (repeat constructor).
  assert (Ha' : Forall (fun l => ascii_only l = true) ["FILE x.bin BINARY"])
    by (repeat constructor).
  split.
  - destruct (proj1 (parse_cue_missing_declaration game_cue
        ["  TRACK 01 MODE1/2352"; "    INDEX 01 00:00:00"] Ha))
      as [H|[H|H]]; [repeat constructor | exact H | discriminate H | discriminate H].
  - destruct (proj2 (parse_cue_missing_declaration game_cue ["FILE x.bin BINARY"] Ha'))
      as [H|H]; [repeat constructor | discriminate H | exact H].
Defined.

(** ** Strings *)

Lemma append_cons c (a b : string) : String c a +:+ b = String c (a +:+ b).
Proof. reflexivity. Qed.

Lemma upper_app a b : Str.upper (a +:+ b) = Str.upper a +:+ Str.upper b.
Proof.
  induction a as [|c a IH]; [reflexivity|].
  rewrite append_cons, !upper_cons, IH. reflexivity.
Qed.

Lemma occurs_app c a b : occurs c (a +:+ b) = occurs c a || occurs c b.
Proof.
  induction a as [|x a IH]; [reflexivity|].
  rewrite append_cons. cbn [occurs]. rewrite IH, orb_assoc. reflexivity.
Qed.

Lemma upper_char_dquote x :
  Ascii.eqb (Str.upper_char x) Str.dquote = Ascii.eqb x Str.dquote.
Proof. destruct x as [[] [] [] [] [] [] [] []]; reflexivity. Qed.

Lemma occurs_dquote_upper s : occurs Str.dquote (Str.upper s) = occurs Str.dquote s.
Proof.
  induction s as [|x s IH]; [reflexivity|].
  rewrite upper_cons. cbn [occurs]. rewrite upper_char_dquote, IH. reflexivity.
Qed.

Lemma translate_newlines_no_cr s :
  occurs Str.CR s = false -> Str.translate_newlines false s = s.
Proof.
  induction s as [|x s IH]; [reflexivity|].
  cbn [occurs Str.translate_newlines]. intros [Hx Hs]%orb_false_iff.
  rewrite Hx, andb_false_r, IH by done. reflexivity.
Qed.

Lemma lines_app l rest :
  occurs Str.LF l = false ->
  Str.lines (l +:+ String Str.LF rest) = (l +:+ String Str.LF "") :: Str.lines rest.
Proof.
  induction l as [|x l IH]; intros Hl.
  - reflexivity.
  - cbn [occurs] in Hl. apply orb_false_iff in Hl as [Hx Hl].
    rewrite !append_cons. cbn [Str.lines]. rewrite Hx, IH by done. reflexivity.
Qed.

Lemma rstrip_app a b :
  Str.rstrip b <> "" -> Str.rstrip (a +:+ b) = a +:+ Str.rstrip b.
Proof.
  intros Hb. induction a as [|x a IH]; [reflexivity|].
  rewrite !append_cons. cbn [Str.rstrip]. rewrite IH.
  destruct (a +:+ Str.rstrip b) as [|y r] eqn:E; [|reflexivity].
  destruct a; [|discriminate]. contradiction.
Qed.

Lemma split_app_sep sep a b :
  occurs sep a = false ->
  Str.split sep (a +:+ String sep b) = a :: Str.split sep b.
Proof.
  induction a as [|x a IH]; intros Ha.
  - change ("" +:+ String sep b) with (String sep b).
    cbn [Str.split]. rewrite Ascii.eqb_refl. reflexivity.
  - cbn [occurs] in Ha. apply orb_false_iff in Ha as [Hx Ha].
    rewrite append_cons. cbn [Str.split]. rewrite Hx, IH by done. reflexivity.
Qed.

Lemma isspace_upper_char c : Str.isspace (Str.upper_char c) = Str.isspace c.
Proof. destruct c as [[] [] [] [] [] [] [] []]; reflexivity. Qed.

Lemma lstrip_upper s : Str.lstrip (Str.upper s) = Str.upper (Str.lstrip s).
Proof.
  induction s as [|c s IH]; [reflexivity|].
  rewrite upper_cons. cbn [Str.lstrip]. rewrite isspace_upper_char, IH.
  destruct (Str.isspace c); [reflexivity | rewrite upper_cons; reflexivity].
Qed.

Lemma rstrip_upper s : Str.rstrip (Str.upper s) = Str.upper (Str.rstrip s).
Proof.
  induction s as [|c s IH]; [reflexivity|].
  rewrite upper_cons. cbn [Str.rstrip]. rewrite IH, isspace_upper_char.
  destruct (Str.rstrip s) as [|y r]; [destruct (Str.isspace c); reflexivity|].
  rewrite !upper_cons. reflexivity.
Qed.

Lemma strip_upper s : Str.strip (Str.upper s) = Str.upper (Str.strip s).
Proof. unfold Str.strip. rewrite lstrip_upper, rstrip_upper. reflexivity. Qed.

(** ** The parser on sheets in any case, and on the sheets of the writer *)

Lemma parse_cue_line_upper cue_path line bin_file mode :
  parse_cue_line cue_path (Str.upper line) bin_file mode =
  parse_cue_line cue_path line bin_file mode.
Proof. unfold parse_cue_line. rewrite strip_upper, upper_idem. reflexivity. Qed.

(** X24. [parse_cue] does not tell the case of the letters of an ASCII
    sheet: keywords in lower case are found like those in upper case, and
    names in lower case are returned like those in upper case. *)
Theorem parse_cue_case_insensitive (cue_path : Path) (f : list string) :
  Forall (fun line => ascii_only line = true) f ->
  parse_cue cue_path (Str.upper <$> f) = parse_cue cue_path f.
Proof.
  intros _. unfold parse_cue. f_equal.
  generalize (@None string) (@None nat).
  induction f as [|line f IH]; intros b m; [reflexivity|].
  rewrite fmap_cons. cbn [parse_cue_loop].
  rewrite parse_cue_line_upper.
  destruct (parse_cue_line cue_path line b m) as [[b' m']| |]; auto.
Qed.

(** The first line of the sheet that [iso_to_bin] writes, as the parser
    reads it. *)
Lemma parse_cue_line_written cue_path bin_name bin_file mode :
  occurs Str.dquote bin_name = false ->
  parse_cue_line cue_path
    (("FILE " +:+ String Str.dquote bin_name) +:+
     String Str.dquote (" BINARY" +:+ String Str.LF "")) bin_file mode =
  Return (Some (Str.upper bin_name), mode).
Proof.
  intros Hq. unfold parse_cue_line, Str.strip.
  replace (Str.lstrip (("FILE " +:+ String Str.dquote bin_name) +:+
                       String Str.dquote (" BINARY" +:+ String Str.LF "")))
    with (("FILE " +:+ String Str.dquote bin_name) +:+
          String Str.dquote (" BINARY" +:+ String Str.LF "")) by reflexivity.
  rewrite rstrip_app by discriminate.
  replace (Str.rstrip (String Str.dquote (" BINARY" +:+ String Str.LF "")))
    with (String Str.dquote " BINARY") by reflexivity.
  assert (Hline :
    Str.upper (("FILE " +:+ String Str.dquote bin_name) +:+ String Str.dquote " BINARY") =
    "FILE " +:+ String Str.dquote (Str.upper bin_name +:+ String Str.dquote " BINARY")).
  { rewrite string_app_assoc, upper_app.
    change (String Str.dquote bin_name +:+ String Str.dquote " BINARY")
      with (String Str.dquote (bin_name +:+ String Str.dquote " BINARY")).
    rewrite (upper_cons Str.dquote), upper_app. reflexivity. }
  rewrite Hline.
  assert (Hstart : forall x, Str.startswith ("FILE " +:+ x) "FILE" = true)
    by reflexivity.
  rewrite Hstart.
  rewrite split_app_sep by reflexivity.
  rewrite split_app_sep by (rewrite occurs_dquote_upper; exact Hq).
  reflexivity.
Qed.

Lemma parse_cue_cue_text (cue_path : Path) (bin_name : string) :
  bin_name <> "" ->
  occurs Str.dquote bin_name = false ->
  occurs Str.LF bin_name = false ->
  occurs Str.CR bin_name = false ->
  parse_cue cue_path (Str.file_lines (cue_text bin_name)) =
  Return (Str.upper bin_name, SECTOR_2352).
Proof.
  intros Hne Hq Hlf Hcr.
  set (rest := "  TRACK 01 MODE1/2352" +:+
               String Str.LF "    INDEX 01 00:00:00" +:+ String Str.LF "").
  assert (Htext : cue_text bin_name =
                  (("FILE " +:+ String Str.dquote bin_name) +:+ String Str.dquote " BINARY")
                  +:+ String Str.LF rest).
  { unfold cue_text. rewrite !string_app_assoc. reflexivity. }
  unfold Str.file_lines. rewrite translate_newlines_no_cr.
  2: { unfold cue_text. rewrite !occurs_app. cbn [occurs]. rewrite Hcr.
       reflexivity. }
  rewrite Htext, lines_app.
  2: { rewrite !occurs_app. cbn [occurs]. rewrite Hlf. reflexivity. }
  rewrite string_app_assoc.
  unfold parse_cue. cbn [parse_cue_loop].
  change (String Str.dquote " BINARY" +:+ String Str.LF "")
    with (String Str.dquote (" BINARY" +:+ String Str.LF "")).
  rewrite parse_cue_line_written by exact Hq.
  replace (parse_cue_loop cue_path (Str.lines rest) (Some (Str.upper bin_name)) None)
    with (@Return (option string * option nat)
            (Some (Str.upper bin_name), Some SECTOR_2352)) by reflexivity.
  destruct bin_name as [|c s]; [congruence | reflexivity].
Qed.

(** X25. The sheet that [iso_to_bin] writes is read back by [parse_cue] as a
    sheet of raw 2352-byte sectors, with the name of the BIN in upper case;
    this for every ASCII name that is not empty and has no double quote and no
    line end in it. *)
Theorem parse_cue_of_cue_text (cue_path : Path) (bin_name : string) :
  ascii_only bin_name = true ->
  bin_name <> "" ->
  occurs Str.dquote bin_name = false ->
  occurs Str.LF bin_name = false ->
  occurs Str.CR bin_name = false ->
  parse_cue cue_path (Str.file_lines (cue_text bin_name)) =
  Return (Str.upper bin_name, SECTOR_2352).
Proof. intros _. apply parse_cue_cue_text. Qed.

Lemma parse_cue_case_insensitive_witness :
  parse_cue game_cue (Str.upper <$> Str.file_lines (cue_text "x.bin")) =
  parse_cue game_cue (Str.file_lines (cue_text "x.bin")).
Proof.
  apply (parse_cue_case_insensitive game_cue (Str.file_lines (cue_text "x.bin"))).
  vm_compute. repeat constructor.
Defined.

Lemma parse_cue_of_cue_text_witness :
  parse_cue game_cue (Str.file_lines (cue_text "game.bin")) =
  Return ("GAME.BIN", SECTOR_2352).
Proof.
  apply (parse_cue_of_cue_text game_cue "game.bin");
    [reflexivity | discriminate | reflexivity ..].
Defined.

(** The lines of the sheet that [iso_to_bin] writes. *)
Lemma file_lines_cue_text (bin_name : string) :
  occurs Str.LF bin_name = false ->
  occurs Str.CR bin_name = false ->
  Str.file_lines (cue_text bin_name) =
  (fun l => l +:+ String Str.LF "") <$> written_cue_lines bin_name.
Proof.
  intros Hlf Hcr.
  set (rest := "  TRACK 01 MODE1/2352" +:+
               String Str.LF "    INDEX 01 00:00:00" +:+ String Str.LF "").
  assert (Htext : cue_text bin_name =
                  (("FILE " +:+ String Str.dquote bin_name) +:+ String Str.dquote " BINARY")
                  +:+ String Str.LF rest).
  { unfold cue_text. rewrite !string_app_assoc. reflexivity. }
  unfold Str.file_lines. rewrite translate_newlines_no_cr.
  2: { unfold cue_text. rewrite !occurs_app. cbn [occurs]. rewrite Hcr.
       reflexivity. }
  rewrite Htext, lines_app.
  2: { rewrite !occurs_app. cbn [occurs]. rewrite Hlf. reflexivity. }
  rewrite (string_app_assoc "FILE "). reflexivity.
Qed.

(** C9, amended. For every name without line feed and carriage return, the
    text written has exactly three lines, each ended by a line feed: the FILE
    line as listed, the TRACK line after two spaces and the INDEX line after
    four spaces; without the leading spaces they are the three lines of the
    template. *)
Theorem cue_text_lines (bin_name : string) :
  occurs Str.LF bin_name = false ->
  occurs Str.CR bin_name = false ->
  Str.file_lines (cue_text bin_name) =
    (fun l => l +:+ String Str.LF "") <$> written_cue_lines bin_name /\
  length (Str.file_lines (cue_text bin_name)) = 3 /\
  written_cue_lines bin_name =
    zip_with String.append ["" ; "  " ; "    "] (spec_cue_lines bin_name) /\
  Str.lstrip <$> written_cue_lines bin_name = spec_cue_lines bin_name.
Proof.
  intros Hlf Hcr. pose proof (file_lines_cue_text bin_name Hlf Hcr) as Hl.
  split; [exact Hl|]. split; [rewrite Hl; reflexivity|]. split; reflexivity.
Qed.

Lemma cue_text_lines_witness :
  occurs Str.LF "x.bin" = false /\ occurs Str.CR "x.bin" = false /\
  length (Str.file_lines (cue_text "x.bin")) = 3 /\
  Str.lstrip <$> written_cue_lines "x.bin" = spec_cue_lines "x.bin".
Proof.
  assert (H1 : occurs Str.LF "x.bin" = false) by reflexivity.
  assert (H2 : occurs Str.CR "x.bin" = false) by reflexivity.
  destruct (cue_text_lines "x.bin" H1 H2) as (_ & H3 & _ & H4).
  split; [exact H1|]. split; [exact H2|]. split; [exact H3 | exact H4].
Defined.

Lemma parse_cue_name_upper_witness :
  parse_cue game_cue (Str.file_lines sheet_x_bin) = Return ("X.BIN", SECTOR_2352) /\
  Str.upper "X.BIN" = "X.BIN".
Proof.
  assert (H : parse_cue game_cue (Str.file_lines sheet_x_bin) =
              Return ("X.BIN", SECTOR_2352)) by (vm_compute; reflexivity).
  split; [exact H|].
  exact (parse_cue_name_upper game_cue (Str.file_lines sheet_x_bin) "X.BIN"
           SECTOR_2352 H).
Defined.

(** ** The dispatcher *)

Lemma rsplit_dot_app s a b : rsplit_dot s = Some (a, b) -> a +:+ b = s.
Proof.
  revert a b. induction s as [|c s IH]; intros a b; cbn [rsplit_dot]; [discriminate|].
  destruct (rsplit_dot s) as [[a' b']|].
  - intros [= <- <-]. rewrite append_cons, (IH a' b') by reflexivity. reflexivity.
  - destruct (Ascii.eqb c "."); [|discriminate]. intros [= <- <-]. reflexivity.
Qed.

Lemma split_name_app n : (split_name n).1 +:+ (split_name n).2 = n.
Proof.
  unfold split_name.
  destruct (rsplit_dot n) as [[a b]|] eqn:E.
  - apply rsplit_dot_app in E.
    destruct a as [|c a]; [|destruct b as [|d [|e b]]]; cbn [fst snd];
      try exact E; clear; induction n as [|x n IH]; try reflexivity;
      rewrite append_cons, IH; reflexivity.
  - cbn [fst snd]. clear. induction n as [|x n IH]; [reflexivity|].
    rewrite append_cons, IH. reflexivity.
Qed.

Lemma str_parent_join p child : str (parent_join p child) = dir p +:+ child.
Proof.
  unfold parent_join. pose proof (split_name_app child) as H.
  destruct (split_name child) as [st su]. cbn [fst snd] in H.
  unfold str, name. cbn [dir stem suffix]. rewrite H. reflexivity.
Qed.

Lemma append_inv_head (a b c : string) : a +:+ b = a +:+ c -> b = c.
Proof.
  induction a as [|x a IH]; [trivial|].
  rewrite !append_cons. intros [= H]. exact (IH H).
Qed.

Lemma str_with_suffix_inj p a b :
  str (with_suffix p a) = str (with_suffix p b) -> a = b.
Proof.
  unfold str, name, with_suffix. cbn [dir stem suffix].
  intros H%append_inv_head%append_inv_head. exact H.
Qed.

Lemma str_with_suffix_self p : str (with_suffix p (suffix p)) = str p.
Proof. destruct p. reflexivity. Qed.

Lemma last_char_app s t : t <> "" -> last_char (s +:+ t) = last_char t.
Proof.
  intros Ht. induction s as [|c s IH]; [reflexivity|].
  rewrite append_cons. cbn [last_char]. rewrite IH.
  destruct (s +:+ t) eqn:E; [|reflexivity].
  destruct s; [|discriminate]. contradiction.
Qed.

Lemma decode_encode text : decode (Str.encode text) = text.
Proof. apply String.string_of_list_byte_of_string. Qed.



Lemma process_file_iso_eq inp output force ask :
  Str.lower (suffix inp) = ".iso" ->
  process_file inp output force ask =
  iso_to_bin inp (default (with_suffix inp ".bin") output) force ask.
Proof.
  intros Hext. unfold process_file. rewrite Hext.
  destruct (decide (".iso" = ".cue")) as [E|_]; [discriminate E|].
  destruct (decide (".iso" = ".iso")) as [_|E]; [reflexivity | contradiction].
Qed.

(** [process_file] on a CUE that holds the sheet written for [bin_name]. *)
Lemma process_file_written_cue inp force ask w bin_name :
  Str.lower (suffix inp) = ".cue" ->
  fs w !! str inp = Some (Str.encode (cue_text bin_name)) ->
  bin_name <> "" ->
  occurs Str.dquote bin_name = false ->
  occurs Str.LF bin_name = false ->
  occurs Str.CR bin_name = false ->
  process_file inp None force ask w =
  bin_to_iso (parent_join inp (Str.upper bin_name)) (with_suffix inp ".iso")
    SECTOR_2352 force ask w.
Proof.
  intros Hext Hcue Hne Hq Hlf Hcr. unfold process_file. rewrite Hext.
  destruct (decide (".cue" = ".cue")) as [_|E]; [|contradiction].
  unfold bind at 1. unfold parse_cue_path, bind, open_r, leave.
  rewrite Hcue, decode_encode, parse_cue_cue_text by done.
  reflexivity.
Qed.

(** X27. From an ISO to BIN and CUE and back, all names (ASCII) left to
    [process_file]: the BIN is written with the suffix [.bin], the sheet
    names it so, and [parse_cue] returns the name in upper case; unless a file
    of that name exists as well, the way back ends with [FileNotFoundError]
    and writes nothing. *)
Theorem process_file_iso_then_cue_default
    (inp : Path) (ask : bool) (w : world) (source : list byte) :
  Str.lower (suffix inp) = ".iso" ->
  fs w !! str inp = Some source ->
  ascii_only (stem inp) = true ->
  occurs Str.dquote (stem inp) = false ->
  occurs Str.LF (stem inp) = false ->
  occurs Str.CR (stem inp) = false ->
  fs w !! (dir inp +:+ Str.upper (stem inp +:+ ".bin")) = None ->
  exists w1,
    process_file inp None true ask w = (Return tt, w1) /\
    process_file (with_suffix inp ".cue") None true ask w1 =
    (Raise FileNotFoundError, w1).
Proof.
  intros Hext Hsrc _ Hq Hlf Hcr Hup.
  assert (Hib : str inp <> str (with_suffix inp ".bin")).
  { rewrite <- (str_with_suffix_self inp). intros E%str_with_suffix_inj.
    rewrite E in Hext. discriminate Hext. }
  eexists. split.
  - rewrite process_file_iso_eq by done. cbn [default].
    apply (iso_to_bin_run _ _ _ _ _ source); auto.
  - set (bin_name := stem inp +:+ ".bin").
    assert (Hne : bin_name <> "").
    { subst bin_name. destruct (stem inp); discriminate. }
    rewrite (process_file_written_cue _ _ _ _ bin_name); try done.
    + apply bin_to_iso_missing_source_run; [|right; reflexivity].
      rewrite str_parent_join. cbn [fs dir with_suffix].
      assert (Hlast : last_char (dir inp +:+ Str.upper bin_name) = Some "N"%char).
      { subst bin_name.
        rewrite upper_app, <- string_app_assoc, last_char_app by discriminate.
        reflexivity. }
      rewrite !lookup_insert_ne; [exact Hup | |].
      * intros E. apply (f_equal last_char) in E. rewrite Hlast in E.
        unfold str, name in E. cbn [dir stem suffix] in E.
        rewrite <- string_app_assoc, last_char_app in E by discriminate.
        discriminate E.
      * intros E. apply (f_equal last_char) in E. rewrite Hlast in E.
        unfold str, name in E. cbn [dir stem suffix] in E.
        rewrite <- string_app_assoc, last_char_app in E by discriminate.
        discriminate E.
    + cbn [fs]. rewrite lookup_insert_eq. reflexivity.
    + subst bin_name. rewrite occurs_app, Hq. reflexivity.
    + subst bin_name. rewrite occurs_app, Hlf. reflexivity.
    + subst bin_name. rewrite occurs_app, Hcr. reflexivity.
Qed.

Lemma process_file_iso_then_cue_default_witness :
  let w := mkWorld {[ str game_iso := replicate 2048 x01 ]} [] in
  exists w1,
    process_file game_iso None true false w = (Return tt, w1) /\
    process_file game_cue None true false w1 = (Raise FileNotFoundError, w1).
Proof.
  intros w.
  apply (process_file_iso_then_cue_default game_iso false w (replicate 2048 x01));
    reflexivity.
Defined.

(** X28. From an ISO of whole sectors to BIN and CUE and back, the BIN named
    with [-o] by an ASCII name without lower-case letter: [process_file] on the CUE
    written finds the BIN and writes an ISO with the bytes of the first
    ISO. *)
Theorem process_file_iso_then_cue_upper
    (inp bin_path : Path) (ask : bool) (w : world) (N : nat) (source : list byte) :
  Str.lower (suffix inp) = ".iso" ->
  fs w !! str inp = Some source ->
  length source = N * SECTOR_2048 ->
  ascii_only (name bin_path) = true ->
  Str.upper (name bin_path) = name bin_path ->
  name bin_path <> "" ->
  occurs Str.dquote (name bin_path) = false ->
  occurs Str.LF (name bin_path) = false ->
  occurs Str.CR (name bin_path) = false ->
  str inp <> str bin_path ->
  suffix bin_path <> ".cue" ->
  suffix bin_path <> ".iso" ->
  exists w1 w2,
    process_file inp (Some bin_path) true ask w = (Return tt, w1) /\
    process_file (with_suffix bin_path ".cue") None true ask w1 = (Return tt, w2) /\
    fs w2 !! str (with_suffix bin_path ".iso") = Some source.
Proof.
  intros Hext Hsrc Hlen _ Hup Hne Hq Hlf Hcr Hib Hsc Hsi.
  assert (Hbc : str bin_path <> str (with_suffix bin_path ".cue")).
  { rewrite <- (str_with_suffix_self bin_path) at 1.
    intros E%str_with_suffix_inj. contradiction. }
  assert (Hbi : str bin_path <> str (with_suffix bin_path ".iso")).
  { rewrite <- (str_with_suffix_self bin_path) at 1.
    intros E%str_with_suffix_inj. contradiction. }
  eexists. eexists. split; [|split].
  - rewrite process_file_iso_eq by done. cbn [default].
    apply (iso_to_bin_run _ _ _ _ _ source); auto.
  - rewrite (process_file_written_cue _ _ _ _ (name bin_path)); try done.
    + apply (bin_to_iso_run _ _ _ _ _ _ (iso_to_bin_loop source [])).
      * rewrite str_parent_join, Hup. cbn [fs].
        change (dir (with_suffix bin_path ".cue") +:+ name bin_path)
          with (str bin_path).
        rewrite lookup_insert_ne, lookup_insert_eq by done. reflexivity.
      * rewrite str_parent_join, Hup. exact Hbi.
      * right. reflexivity.
    + cbn [fs]. rewrite lookup_insert_eq. reflexivity.
  - cbn [fs]. change (with_suffix (with_suffix bin_path ".cue") ".iso")
      with (with_suffix bin_path ".iso").
    rewrite lookup_insert_eq. f_equal.
    pose proof (round_trip_whole_app N source [] Hlen) as H.
    rewrite app_nil_r in H. unfold rawToUser, userToRaw in H.
    rewrite H, iso_to_bin_loop_nil, bin_to_iso_loop_nil. apply app_nil_r.
Qed.

Lemma process_file_iso_then_cue_upper_witness :
  let source := replicate 2048 x01 in
  let w := mkWorld {[ str game_iso := source ]} [] in
  let GAME_BIN := mkPath "" "GAME" ".BIN" in
  exists w1 w2,
    process_file game_iso (Some GAME_BIN) true false w = (Return tt, w1) /\
    process_file (with_suffix GAME_BIN ".cue") None true false w1 = (Return tt, w2) /\
    fs w2 !! "GAME.iso" = Some source.
Proof.
  intros source w GAME_BIN.
  apply (process_file_iso_then_cue_upper game_iso GAME_BIN false w 1 source);
    first [reflexivity | discriminate].
Defined.

(** ** conv_cuechd *)

Section ChdProperties.

Variable run_program : list string -> world -> option nat * world.
Variable which : string -> world -> bool.
Variable system : string.





End ChdProperties.


